(** * Packaging-evaluation workflow: the orchestration core

    A shallow embedding of the evaluation record ([state.py]), the step
    handlers ([tools.py]), the router and its edge tables ([graph.py]) and
    the driver loop of the [/evaluate] endpoint ([web/api.py]), followed by
    the properties of the workflow established on that embedding.

    Conventions of the embedding:
    - a Python [int] is a [Z], a [str] a [string], a [List[T]] a [list T],
      an [Optional[T]] an [option T];
    - the handlers mutate the record they are given and return that same
      object, and an exception leaves the mutations made so far in place;
      handlers are therefore computations over a store holding the one
      record, whose outcome is either a normal return or a raised
      exception, and the store survives both;
    - the language model behind [llm] is an oracle: the answer to the
      n-th call, for each requested output schema, is either a value of
      that schema or a failure.  Every property is proved for all
      oracles. *)

From Stdlib Require Import String Ascii ZArith List Bool Lia.
From Stdlib Require Import Floats.PrimFloat DecimalString.
Import ListNotations.

Local Open Scope string_scope.
Local Open Scope Z_scope.

(** ** Python primitives used by the formatted messages *)

Module Py.

(** [str(i)] for an [int]. *)
Definition str_int (i : Z) : string :=
  NilZero.string_of_int (Z.to_int i).

(** [str(b)] for a [bool]. *)
Definition str_bool (b : bool) : string :=
  if b then "True" else "False".

(** [len(l)] *)
Definition len {A : Type} (l : list A) : Z := Z.of_nat (length l).

(** [sep.join(l)] *)
Definition join (sep : string) (l : list string) : string :=
  String.concat sep l.

(** The line feed of a string literal. *)
Definition nl : string := String (ascii_of_nat 10) EmptyString.

(** Truth value of a list: empty lists are false. *)
Definition truthy_list {A : Type} (l : list A) : bool :=
  match l with [] => false | _ :: _ => true end.

End Py.

(** ** state.py: the data model *)

Module Component.
Record t : Type := mk
  { name : string;
    material : string;
    function : string;
    requirements : list string }.
End Component.

Module ComponentAssessment.
Record t : Type := mk
  { component_name : string;
    feasible : bool;
    notes : string;
    challenges : list string;
    technical_score : float }.
End ComponentAssessment.

Module TechnicalAssessment.
Record t : Type := mk
  { overall_feasible : bool;
    component_assessments : list ComponentAssessment.t;
    technical_summary : string }.
End TechnicalAssessment.

Module OperationalAssessment.
Record t : Type := mk
  { supply_chain_impact : string;
    production_changes_needed : list string;
    cost_impact : string;
    overall_feasible : bool;
    operational_summary : string }.
End OperationalAssessment.

Module ReflectionNotes.
Record t : Type := mk
  { blind_spots : list string;
    questions : list string;
    requires_iteration : bool;
    reflection_summary : string;
    assessment_approved : bool;
    iteration_count : Z }.
End ReflectionNotes.

Module ImprovementRecommendation.
Record t : Type := mk
  { area : string;
    recommendation : string }.
End ImprovementRecommendation.

Module FinalEvaluation.
Record t : Type := mk
  { feasibility_score : Z;
    feasibility_summary : string;
    expert_rationale : string;
    key_strengths : list string;
    key_challenges : list string;
    improvement_recommendations : list ImprovementRecommendation.t;
    go_decision : bool;
    action_items : list string;
    executive_summary : string }.
End FinalEvaluation.

Module ImageAnalysis.
Record t : Type := mk
  { observations : list string;
    identified_components : list string;
    materials_detected : list string;
    design_features : list string;
    analysis_summary : string }.
End ImageAnalysis.

Module UserFeedback.
Record t : Type := mk
  { is_correct : bool;
    feedback_notes : list string;
    suggested_changes : list string }.
End UserFeedback.

(** An entry of the message log: the dict [{"agent": ..., "content": ...}]. *)
Module Message.
Record t : Type := mk
  { agent : string;
    content : string }.
End Message.

Module PackagingEvaluationState.

(** [evaluation_score] is declared [Optional[float]]; the only
    assignment to it stores the integer [feasibility_score] as it is
    (assignments are not validated), so the field holds an [int]. *)
Record t : Type := mk
  { packaging_concept : string;
    concept_images : list string;
    components : list Component.t;
    image_analysis : option ImageAnalysis.t;
    technical_assessment : option TechnicalAssessment.t;
    operational_assessment : option OperationalAssessment.t;
    reflection_notes : option ReflectionNotes.t;
    final_evaluation : option FinalEvaluation.t;
    evaluation_score : option Z;
    final_recommendation : string;
    current_node : string;
    process_complete : bool;
    messages : list Message.t;
    reflection_counter : Z;
    user_feedback : option UserFeedback.t;
    feedback_iteration : Z;
    awaiting_human_input : bool }.

(** Attribute assignments [state.f = v], one per attribute the
    handlers write. *)
Definition set_components (v : list Component.t) (s : t) : t :=
  mk (packaging_concept s) (concept_images s) v (image_analysis s)
     (technical_assessment s) (operational_assessment s)
     (reflection_notes s) (final_evaluation s) (evaluation_score s)
     (final_recommendation s) (current_node s) (process_complete s)
     (messages s) (reflection_counter s) (user_feedback s)
     (feedback_iteration s) (awaiting_human_input s).

Definition set_image_analysis (v : option ImageAnalysis.t) (s : t) : t :=
  mk (packaging_concept s) (concept_images s) (components s) v
     (technical_assessment s) (operational_assessment s)
     (reflection_notes s) (final_evaluation s) (evaluation_score s)
     (final_recommendation s) (current_node s) (process_complete s)
     (messages s) (reflection_counter s) (user_feedback s)
     (feedback_iteration s) (awaiting_human_input s).

Definition set_technical_assessment (v : option TechnicalAssessment.t)
    (s : t) : t :=
  mk (packaging_concept s) (concept_images s) (components s)
     (image_analysis s) v (operational_assessment s)
     (reflection_notes s) (final_evaluation s) (evaluation_score s)
     (final_recommendation s) (current_node s) (process_complete s)
     (messages s) (reflection_counter s) (user_feedback s)
     (feedback_iteration s) (awaiting_human_input s).

Definition set_operational_assessment (v : option OperationalAssessment.t)
    (s : t) : t :=
  mk (packaging_concept s) (concept_images s) (components s)
     (image_analysis s) (technical_assessment s) v
     (reflection_notes s) (final_evaluation s) (evaluation_score s)
     (final_recommendation s) (current_node s) (process_complete s)
     (messages s) (reflection_counter s) (user_feedback s)
     (feedback_iteration s) (awaiting_human_input s).

Definition set_reflection_notes (v : option ReflectionNotes.t) (s : t) : t :=
  mk (packaging_concept s) (concept_images s) (components s)
     (image_analysis s) (technical_assessment s)
     (operational_assessment s) v (final_evaluation s)
     (evaluation_score s) (final_recommendation s) (current_node s)
     (process_complete s) (messages s) (reflection_counter s)
     (user_feedback s) (feedback_iteration s) (awaiting_human_input s).

Definition set_final_evaluation (v : option FinalEvaluation.t) (s : t) : t :=
  mk (packaging_concept s) (concept_images s) (components s)
     (image_analysis s) (technical_assessment s)
     (operational_assessment s) (reflection_notes s) v
     (evaluation_score s) (final_recommendation s) (current_node s)
     (process_complete s) (messages s) (reflection_counter s)
     (user_feedback s) (feedback_iteration s) (awaiting_human_input s).

Definition set_evaluation_score (v : option Z) (s : t) : t :=
  mk (packaging_concept s) (concept_images s) (components s)
     (image_analysis s) (technical_assessment s)
     (operational_assessment s) (reflection_notes s)
     (final_evaluation s) v (final_recommendation s) (current_node s)
     (process_complete s) (messages s) (reflection_counter s)
     (user_feedback s) (feedback_iteration s) (awaiting_human_input s).

Definition set_final_recommendation (v : string) (s : t) : t :=
  mk (packaging_concept s) (concept_images s) (components s)
     (image_analysis s) (technical_assessment s)
     (operational_assessment s) (reflection_notes s)
     (final_evaluation s) (evaluation_score s) v (current_node s)
     (process_complete s) (messages s) (reflection_counter s)
     (user_feedback s) (feedback_iteration s) (awaiting_human_input s).

Definition set_current_node (v : string) (s : t) : t :=
  mk (packaging_concept s) (concept_images s) (components s)
     (image_analysis s) (technical_assessment s)
     (operational_assessment s) (reflection_notes s)
     (final_evaluation s) (evaluation_score s) (final_recommendation s)
     v (process_complete s) (messages s) (reflection_counter s)
     (user_feedback s) (feedback_iteration s) (awaiting_human_input s).

Definition set_process_complete (v : bool) (s : t) : t :=
  mk (packaging_concept s) (concept_images s) (components s)
     (image_analysis s) (technical_assessment s)
     (operational_assessment s) (reflection_notes s)
     (final_evaluation s) (evaluation_score s) (final_recommendation s)
     (current_node s) v (messages s) (reflection_counter s)
     (user_feedback s) (feedback_iteration s) (awaiting_human_input s).

Definition set_messages (v : list Message.t) (s : t) : t :=
  mk (packaging_concept s) (concept_images s) (components s)
     (image_analysis s) (technical_assessment s)
     (operational_assessment s) (reflection_notes s)
     (final_evaluation s) (evaluation_score s) (final_recommendation s)
     (current_node s) (process_complete s) v (reflection_counter s)
     (user_feedback s) (feedback_iteration s) (awaiting_human_input s).

Definition set_reflection_counter (v : Z) (s : t) : t :=
  mk (packaging_concept s) (concept_images s) (components s)
     (image_analysis s) (technical_assessment s)
     (operational_assessment s) (reflection_notes s)
     (final_evaluation s) (evaluation_score s) (final_recommendation s)
     (current_node s) (process_complete s) (messages s) v
     (user_feedback s) (feedback_iteration s) (awaiting_human_input s).

Definition set_user_feedback (v : option UserFeedback.t) (s : t) : t :=
  mk (packaging_concept s) (concept_images s) (components s)
     (image_analysis s) (technical_assessment s)
     (operational_assessment s) (reflection_notes s)
     (final_evaluation s) (evaluation_score s) (final_recommendation s)
     (current_node s) (process_complete s) (messages s)
     (reflection_counter s) v (feedback_iteration s)
     (awaiting_human_input s).

Definition set_awaiting_human_input (v : bool) (s : t) : t :=
  mk (packaging_concept s) (concept_images s) (components s)
     (image_analysis s) (technical_assessment s)
     (operational_assessment s) (reflection_notes s)
     (final_evaluation s) (evaluation_score s) (final_recommendation s)
     (current_node s) (process_complete s) (messages s)
     (reflection_counter s) (user_feedback s) (feedback_iteration s) v.

(** [add_message]: appends one entry at the end of the log. *)
Definition add_message (agent content : string) (s : t) : t :=
  set_messages (messages s ++ [Message.mk agent content]) s.

(** *** Class-level defaults

    The class body runs once, when the class is defined.  At that
    point the name [concept_images] is bound to the object returned by
    [Field(default_factory=list, ...)], not to the image list of any
    instance. *)
Inductive ClassAttribute : Type :=
| FieldInfo (description : string).

(** Truth value of a class attribute: a [FieldInfo] defines neither
    [__bool__] nor [__len__], so it is true. *)
Definition truthy_attribute (a : ClassAttribute) : bool :=
  match a with FieldInfo _ => true end.

Definition concept_images_field : ClassAttribute :=
  FieldInfo "URLs or base64 encoded images of the packaging concept".

(** [current_node: str = "image_analyzer" if concept_images else
    "concept_breaker"], evaluated in the class body. *)
Definition current_node_default : string :=
  if truthy_attribute concept_images_field
  then "image_analyzer" else "concept_breaker".

(** [PackagingEvaluationState(packaging_concept=c, concept_images=i)]:
    every other field takes its default. *)
Definition new (c : string) (i : list string) : t :=
  {| packaging_concept := c;
     concept_images := i;
     components := [];
     image_analysis := None;
     technical_assessment := None;
     operational_assessment := None;
     reflection_notes := None;
     final_evaluation := None;
     evaluation_score := None;
     final_recommendation := EmptyString;
     current_node := current_node_default;
     process_complete := false;
     messages := [];
     reflection_counter := 0;
     user_feedback := None;
     feedback_iteration := 0;
     awaiting_human_input := false |}.

End PackagingEvaluationState.

Module PES := PackagingEvaluationState.

(** ** tools.py: the schema requested from the model for the component list *)

Module ComponentList.
Record t : Type := mk
  { components : list Component.t }.
End ComponentList.

(** ** Store, exceptions and the collaborator *)

Module Runtime.

(** The exceptions that occur in the workflow.  [CollaboratorError]
    stands for whatever exception a call of the language model raises;
    it carries the text [str(e)] of that exception. *)
Inductive Exception : Type :=
| ValueError (msg : string)
| CollaboratorError (msg : string)
| HTTPException (status_code : Z) (detail : string).

(** [str(e)].  An [HTTPException] prints as its status code and its
    detail. *)
Definition str_exception (e : Exception) : string :=
  match e with
  | ValueError msg => msg
  | CollaboratorError msg => msg
  | HTTPException c d => Py.str_int c ++ ": " ++ d
  end.

(** The output schemas handed to [llm.with_structured_output]. *)
Inductive Schema : Type :=
| ImageAnalysisSchema
| ComponentListSchema
| TechnicalAssessmentSchema
| OperationalAssessmentSchema
| ReflectionNotesSchema
| FinalEvaluationSchema.

Definition output (T : Schema) : Type :=
  match T with
  | ImageAnalysisSchema => ImageAnalysis.t
  | ComponentListSchema => ComponentList.t
  | TechnicalAssessmentSchema => TechnicalAssessment.t
  | OperationalAssessmentSchema => OperationalAssessment.t
  | ReflectionNotesSchema => ReflectionNotes.t
  | FinalEvaluationSchema => FinalEvaluation.t
  end.

(** The collaborator: for a schema and the number of calls made so
    far, either the text of the exception the call raises or the
    structured answer.  The prompt is not an argument: the answers are
    arbitrary, and every statement quantifies over all collaborators. *)
Definition Collaborator : Type :=
  forall T : Schema, nat -> string + output T.

(** The store: the one record of the session, and the number of calls
    the collaborator has received. *)
Record World : Type := mkWorld
  { state : PES.t;
    llm_calls : nat }.

Inductive Outcome (A : Type) : Type :=
| Returned (a : A)
| Raised (e : Exception).
Arguments Returned {A} a.
Arguments Raised {A} e.

(** A computation runs on the store and ends by returning or by
    raising; the store it leaves is part of the result in both cases. *)
Definition M (A : Type) : Type := World -> Outcome A * World.

Definition ret {A : Type} (a : A) : M A := fun w => (Returned a, w).

Definition bind {A B : Type} (c : M A) (k : A -> M B) : M B :=
  fun w =>
    match c w with
    | (Returned a, w') => k a w'
    | (Raised e, w') => (Raised e, w')
    end.

Definition raise {A : Type} (e : Exception) : M A :=
  fun w => (Raised e, w).

(** Read the record. *)
Definition get : M PES.t := fun w => (Returned (state w), w).

(** Mutate the record in place. *)
Definition modify (f : PES.t -> PES.t) : M unit :=
  fun w => (Returned tt, mkWorld (f (state w)) (llm_calls w)).

(** [await llm.with_structured_output(T).ainvoke([message])]: one call
    of the collaborator, counted whether it succeeds or fails. *)
Definition ainvoke (llm : Collaborator) (T : Schema) : M (output T) :=
  fun w =>
    let w' := mkWorld (state w) (S (llm_calls w)) in
    match llm T (llm_calls w) with
    | inr a => (Returned a, w')
    | inl msg => (Raised (CollaboratorError msg), w')
    end.

End Runtime.

Import Runtime.

Declare Scope py_scope.
Delimit Scope py_scope with py.
Notation "x <- c ;; k" := (bind c (fun x => k))
  (at level 61, c at next level, right associativity) : py_scope.
Notation "c ;; k" := (bind c (fun _ => k))
  (at level 61, right associativity) : py_scope.
Local Open Scope py_scope.

(** ** tools.py: the step handlers

    Each handler is [async def h(state) -> state]: it mutates [state] and
    returns that same object, so a handler is a computation of type
    [M unit] on the store.  The prompt text sent to the model is not
    part of the record and is left out. *)

Module Tools.

Import PackagingEvaluationState.

(** [state.current_node = n] *)
Definition goto (n : string) : M unit := modify (set_current_node n).

(** [state.add_message(agent, content)] *)
Definition say (agent content : string) : M unit :=
  modify (add_message agent content).

(** One line group of the component review shown to the user. *)
Definition component_summary (c : Component.t) : string :=
  "- Component: " ++ Component.name c ++ Py.nl ++
  "  Material: " ++ Component.material c ++ Py.nl ++
  "  Function: " ++ Component.function c ++ Py.nl ++
  "  Requirements: " ++ Py.join ", " (Component.requirements c).

Definition feedback_prompt (cs : list Component.t) : string :=
  Py.nl ++
  "Please review the component breakdown:" ++ Py.nl ++
  Py.nl ++
  Py.join Py.nl (map component_summary cs) ++ Py.nl ++
  Py.nl ++
  "Please provide feedback on:" ++ Py.nl ++
  "1. Are the component identifications correct? (yes/no)" ++ Py.nl ++
  "2. Are the material assumptions accurate? (yes/no)" ++ Py.nl ++
  "3. Any suggested changes or improvements? (list specific changes)"
    ++ Py.nl ++
  Py.nl ++
  "Please provide your feedback in the following format:" ++ Py.nl ++
  "is_correct: [yes/no]" ++ Py.nl ++
  "feedback_notes: [your notes]" ++ Py.nl ++
  "suggested_changes: [list of specific changes]" ++ Py.nl.

(** The handlers that never touch [llm]. *)

Definition human_feedback : M unit :=
  s <- get ;;
  match user_feedback s with
  | None =>
      say "human_feedback" (feedback_prompt (components s)) ;;
      modify (set_awaiting_human_input true) ;;
      goto "human_feedback"
  | Some _ =>
      goto "process_feedback"
  end.

(** The guard [not state.user_feedback] holds exactly for [None]: a
    model instance defines neither [__bool__] nor [__len__], so it is
    true.  [state.user_feedback] is read several times by the source;
    nothing writes it between the guard and the final reset, so it is
    bound once. *)
Definition process_feedback : M unit :=
  s <- get ;;
  match user_feedback s with
  | None => raise (ValueError "No user feedback available to process")
  | Some fb =>
      say "feedback_processor"
          ("Processing feedback. " ++
           (if negb (UserFeedback.is_correct fb)
            then "Changes requested"
            else "Components confirmed correct")) ;;
      (if UserFeedback.is_correct fb
       then goto "technical_feasibility"
       else
         say "feedback_processor"
             ("Adjusting components based on feedback: " ++
              Py.join ", " (UserFeedback.suggested_changes fb)) ;;
         goto "concept_breaker") ;;
      modify (set_user_feedback None)
  end.

Section WithModel.

(** The module-level [llm]. *)
Variable llm : Collaborator.

Definition image_analysis : M unit :=
  s <- get ;;
  if negb (Py.truthy_list (concept_images s)) then
    goto "concept_breaker"
  else
    analysis <- ainvoke llm ImageAnalysisSchema ;;
    modify (set_image_analysis (Some analysis)) ;;
    say "image_analyzer"
        ("Image analysis complete. Identified " ++
         Py.str_int (Py.len (ImageAnalysis.identified_components analysis))
         ++ " components. " ++
         ImageAnalysis.analysis_summary analysis) ;;
    goto "concept_breaker".

Definition concept_breaker : M unit :=
  cl <- ainvoke llm ComponentListSchema ;;
  modify (set_components (ComponentList.components cl)) ;;
  say "concept_breaker"
      ("Concept breakdown complete. Identified " ++
       Py.str_int (Py.len (ComponentList.components cl)) ++
       " components.") ;;
  goto "human_feedback".

Definition technical_feasibility : M unit :=
  assessment <- ainvoke llm TechnicalAssessmentSchema ;;
  modify (set_technical_assessment (Some assessment)) ;;
  say "technical_feasibility"
      ("Technical feasibility assessment complete. Overall feasibility: "
       ++ Py.str_bool (TechnicalAssessment.overall_feasible assessment)) ;;
  goto "operations".

Definition operations : M unit :=
  assessment <- ainvoke llm OperationalAssessmentSchema ;;
  modify (set_operational_assessment (Some assessment)) ;;
  say "operations"
      ("Operational impact assessment complete. Overall feasibility: "
       ++ Py.str_bool (OperationalAssessment.overall_feasible assessment)) ;;
  goto "reflection".

Definition reflection : M unit :=
  modify (fun s => set_reflection_counter (reflection_counter s + 1) s) ;;
  s <- get ;;
  if 3 <=? reflection_counter s then
    say "reflection"
        "Maximum number of reflections reached (3). Moving to final evaluation." ;;
    goto "final_score"
  else
    notes <- ainvoke llm ReflectionNotesSchema ;;
    modify (set_reflection_notes (Some notes)) ;;
    s <- get ;;
    say "reflection"
        ("Reflection " ++ Py.str_int (reflection_counter s) ++
         "/3 complete. Requires iteration: " ++
         Py.str_bool (ReflectionNotes.requires_iteration notes)) ;;
    s <- get ;;
    if ReflectionNotes.requires_iteration notes
       && (reflection_counter s <? 3)
    then
      if Py.truthy_list (ReflectionNotes.questions notes)
      then goto "technical_feasibility"
      else goto "operations"
    else goto "final_score".

Definition final_score : M unit :=
  evaluation <- ainvoke llm FinalEvaluationSchema ;;
  modify (set_final_evaluation (Some evaluation)) ;;
  modify (set_evaluation_score
            (Some (FinalEvaluation.feasibility_score evaluation))) ;;
  modify (set_final_recommendation
            (FinalEvaluation.executive_summary evaluation)) ;;
  modify (set_process_complete true) ;;
  say "final_score"
      ("Final evaluation complete. Score: " ++
       Py.str_int (FinalEvaluation.feasibility_score evaluation) ++
       "/10. " ++
       "Go decision: " ++
       Py.str_bool (FinalEvaluation.go_decision evaluation)).

End WithModel.

End Tools.

(** ** graph.py: nodes, router and conditional edges *)

Module Graph.

(** The terminal sentinel of the graph library. *)
Definition END : string := "__end__".

(** The [add_node] calls, in order. *)
Definition nodes : list string :=
  [ "image_analyzer"; "concept_breaker"; "human_feedback";
    "process_feedback"; "technical_feasibility"; "operations";
    "reflection"; "final_score" ].

(** Both non-terminal branches return [state.current_node]. *)
Definition router (s : PES.t) : string :=
  if PES.process_complete s then END
  else if PES.awaiting_human_input s then PES.current_node s
  else PES.current_node s.

(** The mapping given to [add_conditional_edges] for each source
    node: router result, then destination. *)
Definition conditional_edges (source : string) : list (string * string) :=
  if String.eqb source "image_analyzer" then
    [ ("concept_breaker", "concept_breaker") ]
  else if String.eqb source "concept_breaker" then
    [ ("human_feedback", "human_feedback") ]
  else if String.eqb source "human_feedback" then
    [ ("human_feedback", "human_feedback");
      ("process_feedback", "process_feedback") ]
  else if String.eqb source "process_feedback" then
    [ ("concept_breaker", "concept_breaker");
      ("technical_feasibility", "technical_feasibility") ]
  else if String.eqb source "technical_feasibility" then
    [ ("operations", "operations") ]
  else if String.eqb source "operations" then
    [ ("reflection", "reflection") ]
  else if String.eqb source "reflection" then
    [ ("technical_feasibility", "technical_feasibility");
      ("operations", "operations");
      ("final_score", "final_score") ]
  else if String.eqb source "final_score" then
    [ (END, END) ]
  else [].

(** The allowed-next set of a step: the router results its mapping
    accepts. *)
Definition allowed_next (source : string) : list string :=
  map fst (conditional_edges source).

Definition allowed (source next : string) : bool :=
  existsb (String.eqb next) (allowed_next source).

(** [graph.set_entry_point("image_analyzer")] *)
Definition entry_point : string := "image_analyzer".

End Graph.

(** ** web/api.py: the driver loop of the [/evaluate] endpoint *)

Module Api.

Module EvaluationRequest.
Record t : Type := mk
  { packaging_concept : string;
    concept_images : list string }.
End EvaluationRequest.

(** [state] holds [state.dict()], the snapshot of every field. *)
Module EvaluationResponse.
Record t : Type := mk
  { state : PES.t;
    current_node : string;
    messages : list Message.t;
    process_complete : bool }.
End EvaluationResponse.

(** The condition of the [while]. *)
Definition loop_guard (s : PES.t) : bool :=
  negb (PES.process_complete s) && negb (PES.awaiting_human_input s).

Section WithModel.

Variable llm : Collaborator.

(** The [if]/[elif] chain on [state.current_node]. *)
Definition dispatch (node : string) : M unit :=
  if String.eqb node "image_analyzer" then Tools.image_analysis llm
  else if String.eqb node "concept_breaker" then Tools.concept_breaker llm
  else if String.eqb node "human_feedback" then Tools.human_feedback
  else if String.eqb node "process_feedback" then Tools.process_feedback
  else if String.eqb node "technical_feasibility"
       then Tools.technical_feasibility llm
  else if String.eqb node "operations" then Tools.operations llm
  else if String.eqb node "reflection" then Tools.reflection llm
  else if String.eqb node "final_score" then Tools.final_score llm
  else raise (HTTPException 400 ("Unknown node: " ++ node)).

(** One iteration of the loop. *)
Definition loop_body : M unit :=
  s <- get ;; dispatch (PES.current_node s).

(** The [while] loop, with [fuel] bounding the number of iterations;
    [None] means the bound was reached with the guard still true. *)
Fixpoint driver_loop (fuel : nat) (w : World)
  : option (Outcome unit * World) :=
  if loop_guard (state w) then
    match fuel with
    | O => None
    | S fuel' =>
        match loop_body w with
        | (Returned _, w') => driver_loop fuel' w'
        | (Raised e, w') => Some (Raised e, w')
        end
    end
  else Some (Returned tt, w).

(** The endpoint: build the record, run the loop, answer with the
    snapshot; any exception becomes an [HTTPException] with status
    500.  [calls] is the number of calls the collaborator received
    before the request; the result carries that number afterwards. *)
Definition evaluate_packaging (fuel : nat) (request : EvaluationRequest.t)
    (calls : nat) : option (Outcome EvaluationResponse.t * nat) :=
  let s0 := PES.new (EvaluationRequest.packaging_concept request)
                    (EvaluationRequest.concept_images request) in
  match driver_loop fuel (mkWorld s0 calls) with
  | None => None
  | Some (Returned _, w) =>
      Some (Returned
              (EvaluationResponse.mk (state w)
                 (PES.current_node (state w))
                 (PES.messages (state w))
                 (PES.process_complete (state w))),
            llm_calls w)
  | Some (Raised e, w) =>
      Some (Raised (HTTPException 500 (str_exception e)), llm_calls w)
  end.

(** The stores observed along a run of the loop: the store at each
    test of the guard, and the store left by an iteration that
    raised. *)
Inductive execution : World -> World -> Prop :=
| exec_here : forall w, execution w w
| exec_iter : forall w w' w'',
    loop_guard (state w) = true ->
    loop_body w = (Returned tt, w') ->
    execution w' w'' ->
    execution w w''
| exec_raise : forall w e w',
    loop_guard (state w) = true ->
    loop_body w = (Raised e, w') ->
    execution w w'.

End WithModel.

End Api.

Import PackagingEvaluationState.

(** ** Concrete records and collaborators used to run the model *)

Module Samples.

(** A collaborator whose every call fails. *)
Definition failing_llm : Collaborator :=
  fun T _ => inl "model unavailable".

Definition sample_component : Component.t :=
  Component.mk "lid" "recycled PET" "seals the tray" ["food safe"].

Definition sample_image_analysis : ImageAnalysis.t :=
  ImageAnalysis.mk ["a tray with a lid"] ["tray"; "lid"] ["PET"] []
    "Tray with a snap lid.".

Definition sample_technical : TechnicalAssessment.t :=
  TechnicalAssessment.mk true [] "Feasible on existing lines.".

Definition sample_operational : OperationalAssessment.t :=
  OperationalAssessment.mk "Low" [] "Neutral" true "No line change.".

(** Reflection notes that ask for another iteration and raise a
    question. *)
Definition insisting_notes : ReflectionNotes.t :=
  ReflectionNotes.mk [] ["Is the seal strong enough?"] true
    "Seal strength is unclear." false 1.

Definition sample_evaluation : FinalEvaluation.t :=
  FinalEvaluation.mk 7 "Feasible." "Known materials." ["simple"] []
    [] true ["run a pilot"] "Go, with a pilot run.".

(** A collaborator that always answers, and whose reflection always
    asks for another iteration. *)
Definition insisting_llm : Collaborator :=
  fun T _ =>
    inr (match T return output T with
         | ImageAnalysisSchema => sample_image_analysis
         | ComponentListSchema => ComponentList.mk [sample_component]
         | TechnicalAssessmentSchema => sample_technical
         | OperationalAssessmentSchema => sample_operational
         | ReflectionNotesSchema => insisting_notes
         | FinalEvaluationSchema => sample_evaluation
         end).

Definition accept : UserFeedback.t := UserFeedback.mk true [] [].

Definition reject : UserFeedback.t :=
  UserFeedback.mk false ["the lid is cardboard"] ["lid: cardboard"].

(** The record of a new session without images. *)
Definition fresh : PES.t := PES.new "A tray with a snap lid" [].

(** The record of a new session with one image. *)
Definition fresh_with_image : PES.t :=
  PES.new "A tray with a snap lid" ["data:image/png;base64,AAAA"].

(** The store in which the driver loop leaves the new session: the
    record is parked at the feedback step. *)
Definition parked_world : World :=
  match Api.driver_loop insisting_llm 3 (mkWorld fresh 0) with
  | Some (_, w) => w
  | None => mkWorld fresh 0
  end.

Definition parked : PES.t := state parked_world.

(** The parked record once the caller has attached feedback to it. *)
Definition parked_with_feedback (fb : UserFeedback.t) : PES.t :=
  set_user_feedback (Some fb) parked.

(** The record the caller hands back: feedback attached and the
    awaiting flag taken down, so that the loop runs again. *)
Definition resumed (fb : UserFeedback.t) : PES.t :=
  set_awaiting_human_input false (parked_with_feedback fb).

Definition resumed_world (fb : UserFeedback.t) : World :=
  mkWorld (resumed fb) (llm_calls parked_world).

(** The store on which the resumed, accepted session ends. *)
Definition finished : World :=
  match Api.driver_loop insisting_llm 12 (resumed_world accept) with
  | Some (_, w) => w
  | None => mkWorld fresh 0
  end.

(** A record on which the image step would have declared
    [final_score] as its next step. *)
Definition misrouted : PES.t := set_current_node "final_score" fresh_with_image.

(** A record sent to [process_feedback] with no feedback attached. *)
Definition out_of_order : PES.t := set_current_node "process_feedback" fresh.

(** A record about to run reflection with the counter at [n]. *)
Definition at_reflection (n : Z) : PES.t :=
  set_reflection_counter n (set_current_node "reflection" fresh).

End Samples.

(** ** Predicates used in the statements *)

(** The reflection step always starts by adding one to the counter;
    this is the record every later effect of the step applies to. *)
Definition counted (s : PES.t) : PES.t :=
  set_reflection_counter (reflection_counter s + 1) s.

(** The step the reflection notes ask for. *)
Definition reflection_route (notes : ReflectionNotes.t) : string :=
  if ReflectionNotes.requires_iteration notes then
    if Py.truthy_list (ReflectionNotes.questions notes)
    then "technical_feasibility" else "operations"
  else "final_score".

(** The counter bound that the loop maintains: the counter is at most
    2, or it is 3 and the record is about to enter [final_score]. *)
Definition within_bound (s : PES.t) : Prop :=
  reflection_counter s <= 2
  \/ (reflection_counter s = 3 /\ current_node s = "final_score").

(** What must hold of a record for it to count as parked: if it is
    flagged as awaiting input, it sits at the feedback step and holds
    no feedback. *)
Definition parked_properly (s : PES.t) : Prop :=
  awaiting_human_input s = true ->
  current_node s = "human_feedback" /\ user_feedback s = None.

(** ** vector_store/document_processor.py: splitting text into chunks

    The text of a file or of a page is handed over as the list of words
    [text.split()] returns; reading the file is outside the model. *)

Module DocumentProcessor.

(** The processor and the defaults of its constructor. *)
Record t : Type := mk
  { chunk_size : Z;
    chunk_overlap : Z }.

Definition default : t := mk 1000 200.

(** [l[-k:]]: the last [k] elements for a positive [k]; the whole list
    for [k = 0], since [-0] is [0]; and for a negative [k] the list
    without its first [-k] elements. *)
Definition last_slice {A : Type} (k : Z) (l : list A) : list A :=
  if k =? 0 then l
  else if 0 <? k then skipn (length l - Z.to_nat k) l
  else skipn (Z.to_nat (- k)) l.

(** [len(word)] *)
Definition str_len (word : string) : Z := Z.of_nat (String.length word).

(** [sum(len(word) + 1 for word in words)] *)
Definition words_size (words : list string) : Z :=
  fold_left (fun acc word => acc + (str_len word + 1)) words 0.

(** The three variables of the loop. *)
Record Chunker : Type := mkChunker
  { text_chunks : list string;
    current_chunk : list string;
    current_size : Z }.

(** The body of [for word in words]. *)
Definition feed (self : t) (st : Chunker) (word : string) : Chunker :=
  let chunk := (current_chunk st ++ [word])%list in
  let size := current_size st + (str_len word + 1) in
  if chunk_size self <=? size then
    let overlap_words := last_slice (chunk_overlap self) chunk in
    mkChunker (text_chunks st ++ [Py.join " " chunk])%list
              overlap_words
              (words_size overlap_words)
  else mkChunker (text_chunks st) chunk size.

(** [if current_chunk: text_chunks.append(" ".join(current_chunk))] *)
Definition flush (st : Chunker) : list string :=
  if Py.truthy_list (current_chunk st)
  then (text_chunks st ++ [Py.join " " (current_chunk st)])%list
  else text_chunks st.

(** The loop over the words of one text, appending to the chunks
    collected so far. *)
Definition chunk_words (self : t) (chunks : list string)
    (words : list string) : list string :=
  flush (fold_left (feed self) words (mkChunker chunks [] 0)).

(** [words] is [text.split()] of the file's text. *)
Definition _extract_text_from_txt (self : t) (words : list string)
  : list string :=
  chunk_words self [] words.

(** [pages] holds [page.get_text().split()] for each page, in order. *)
Definition _extract_text_from_pdf (self : t) (pages : list (list string))
  : list string :=
  fold_left (chunk_words self) pages [].

End DocumentProcessor.

Module DP := DocumentProcessor.

(** The size the chunking loop keeps is the size of the words it
    holds. *)
Definition size_kept (st : DP.Chunker) : Prop :=
  DP.current_size st = DP.words_size (DP.current_chunk st).

(** [seg] is a run of consecutive words of [words]. *)
Definition run_of (words seg : list string) : Prop :=
  exists before after, words = (before ++ seg ++ after)%list.

(** What the chunking loop maintains, [processed] being the words fed
    so far: the words it holds end [processed]; every chunk collected is
    the join of a non-empty run of [processed] that reached the chunk
    size; every word fed is either held or in a collected chunk; and the
    size kept is that of the words held. *)
Definition chunking_invariant (self : DP.t) (processed : list string)
    (st : DP.Chunker) : Prop :=
  (exists before, processed = (before ++ DP.current_chunk st)%list)
  /\ (forall chunk,
         In chunk (DP.text_chunks st) ->
         exists seg,
           seg <> [] /\ chunk = Py.join " " seg /\ run_of processed seg
           /\ DP.chunk_size self <= DP.words_size seg)
  /\ (forall word,
         In word processed ->
         In word (DP.current_chunk st)
         \/ exists seg,
              In word seg /\ In (Py.join " " seg) (DP.text_chunks st))
  /\ size_kept st.

(** A small processor and a short text to run the chunking on. *)
Module ChunkSamples.

Definition processor : DP.t := DP.mk 12 1.

Definition words : list string := ["thin"; "board"; "folds"; "flat"].

Definition no_overlap : DP.t := DP.mk 12 0.

End ChunkSamples.

(** ** vector_store/api.py: the search endpoint

    The vector store behind [vector_store.search_similar] is a
    collaborator: for a query and a limit it gives the entries found or
    fails.  The metadata of an entry is a JSON object; its values are
    modelled with the operations the endpoint applies to them. *)

Module KnowledgeBase.

(** A JSON value as Python holds it. *)
#[local] Unset Elimination Schemes.
Inductive Json : Type :=
| JNull
| JBool (b : bool)
| JInt (i : Z)
| JFloat (x : float)
| JStr (s : string)
| JList (items : list Json)
| JDict (fields : list (string * Json)).
#[local] Set Elimination Schemes.

(** A [dict] with string keys, as the list of its items. *)
Definition Dict : Type := list (string * Json).

Fixpoint lookup (key : string) (d : Dict) : option Json :=
  match d with
  | [] => None
  | (k, v) :: d' => if String.eqb k key then Some v else lookup key d'
  end.

(** [d.get(key, default)]; [d.get(key)] is [get d key JNull]. *)
Definition get (d : Dict) (key : string) (default : Json) : Json :=
  match lookup key d with
  | Some v => v
  | None => default
  end.

(** The fields of [KnowledgeEntry]; the two timestamps are numbers. *)
Record KnowledgeEntry : Type := mkEntry
  { id : string;
    type : string;
    content : string;
    metadata : Dict;
    embedding : option (list float);
    created_at : Z;
    updated_at : Z }.

(** What can go wrong inside the endpoint: the store fails, or [in] is
    applied to a value that is no container (the name of its type is
    kept). *)
Inductive Error : Type :=
| StoreError (msg : string)
| TypeError (type_name : string).

(** [value != text] for a string [text]: only an equal string is
    equal. *)
Definition differs (value : Json) (text : string) : bool :=
  match value with
  | JStr s => negb (String.eqb s text)
  | _ => true
  end.

(** [tag in container] for a string [tag]: an equal element of a list,
    a substring of a string, a key of a dict; any other value raises
    [TypeError]. *)
Definition contains (container : Json) (tag : string) : Error + bool :=
  match container with
  | JList items =>
      inr (existsb (fun item => match item with
                                | JStr s => String.eqb s tag
                                | _ => false
                                end) items)
  | JStr s =>
      inr (match String.index 0 tag s with Some _ => true | None => false end)
  | JDict fields => inr (existsb (fun kv => String.eqb (fst kv) tag) fields)
  | JNull => inl (TypeError "NoneType")
  | JBool _ => inl (TypeError "bool")
  | JInt _ => inl (TypeError "int")
  | JFloat _ => inl (TypeError "float")
  end.

(** [all(tag in container for tag in tags)]: stops at the first tag
    that is missing, or at the first error. *)
Fixpoint all_in (container : Json) (tags : list string) : Error + bool :=
  match tags with
  | [] => inr true
  | tag :: tags' =>
      match contains container tag with
      | inl e => inl e
      | inr false => inr false
      | inr true => all_in container tags'
      end
  end.

(** Truth value of an optional string, and of an optional list. *)
Definition given_text (o : option string) : bool :=
  match o with
  | None => false
  | Some s => negb (String.eqb s EmptyString)
  end.

Definition given_tags (o : option (list string)) : bool :=
  match o with
  | None => false
  | Some tags => Py.truthy_list tags
  end.

(** The two tests of the filter loop on one result: [inr false] is
    [continue], [inr true] lets the result through. *)
Definition passes (agent_type : option string) (tags : option (list string))
    (result : KnowledgeEntry) : Error + bool :=
  if given_text agent_type
     && differs (get (metadata result) "agent_type" JNull)
                (match agent_type with Some a => a | None => EmptyString end)
  then inr false
  else if given_tags tags then
    all_in (get (metadata result) "tags" (JList []))
           (match tags with Some l => l | None => [] end)
  else inr true.

(** The filter loop: results are appended in order, and the first
    error ends the loop. *)
Fixpoint filter_results (agent_type : option string)
    (tags : option (list string)) (results : list KnowledgeEntry)
  : Error + list KnowledgeEntry :=
  match results with
  | [] => inr []
  | result :: results' =>
      match passes agent_type tags result with
      | inl e => inl e
      | inr keep =>
          match filter_results agent_type tags results' with
          | inl e => inl e
          | inr kept => inr (if keep then result :: kept else kept)
          end
      end
  end.

(** An item of the answer. *)
Record Hit : Type := mkHit
  { hit_id : string;
    hit_content : string;
    hit_metadata : Dict;
    similarity : Json }.

Definition hit (result : KnowledgeEntry) : Hit :=
  mkHit (id result) (content result) (metadata result)
        (get (metadata result) "similarity" (JInt 0)).

(** The answer of the endpoint: the hits, or the [HTTPException] of
    status 500 whose detail is the text of the error. *)
Inductive Answer : Type :=
| Results (hits : list Hit)
| Status500 (cause : Error).

Section WithStore.

(** [vector_store.search_similar(query, limit)] *)
Variable search_similar : string -> Z -> Error + list KnowledgeEntry.

Definition search_documents (query : string) (agent_type : option string)
    (tags : option (list string)) (limit : Z) : Answer :=
  match search_similar query limit with
  | inl e => Status500 e
  | inr results =>
      match (if given_text agent_type || given_tags tags
             then filter_results agent_type tags results
             else inr results) with
      | inl e => Status500 e
      | inr kept => Results (map hit kept)
      end
  end.

End WithStore.

End KnowledgeBase.

Module KB := KnowledgeBase.

(** Entries to run the search on. *)
Module SearchSamples.

Definition tagged : KB.KnowledgeEntry :=
  KB.mkEntry "a_0" "document" "PET trays seal at 140 C."
    [ ("filename", KB.JStr "pet.txt");
      ("agent_type", KB.JStr "technical");
      ("tags", KB.JList [KB.JStr "pet"; KB.JStr "sealing"]) ]
    None 0 0.

(** A machine entry: its metadata has neither agent type nor tags. *)
Definition machine : KB.KnowledgeEntry :=
  KB.mkEntry "m_1" "machine" "Folder-gluer, 300 m/min."
    [ ("name", KB.JStr "FG-300"); ("type", KB.JStr "folder") ]
    None 0 0.

(** An entry whose tags are null. *)
Definition null_tags : KB.KnowledgeEntry :=
  KB.mkEntry "n_2" "document" "Board grades."
    [ ("agent_type", KB.JStr "technical"); ("tags", KB.JNull) ]
    None 0 0.

Definition store (results : list KB.KnowledgeEntry)
  : string -> Z -> KB.Error + list KB.KnowledgeEntry :=
  fun _ _ => inr results.

End SearchSamples.

(** The test the filter loop makes, as a yes or no: the result goes
    through without error. *)
Definition matches (agent_type : option string) (tags : option (list string))
    (result : KB.KnowledgeEntry) : bool :=
  match KB.passes agent_type tags result with
  | inr true => true
  | _ => false
  end.

(** Consecutive word lists overlap: each one starts with the slice kept
    from the one before. *)
Inductive overlapping (k : Z) : list (list string) -> Prop :=
| overlapping_nil : overlapping k []
| overlapping_one : forall a, overlapping k [a]
| overlapping_cons : forall a b rest,
    (exists more, b = (DP.last_slice k a ++ more)%list) ->
    overlapping k (b :: rest) ->
    overlapping k (a :: b :: rest).

(** The chunks collected are the joins of overlapping word lists, each
    a non-empty run of the words fed so far; the words held end the
    words fed and start with the slice kept from the last list. *)
Definition overlap_invariant (self : DP.t) (processed : list string)
    (st : DP.Chunker) : Prop :=
  exists segs,
    DP.text_chunks st = map (Py.join " ") segs
    /\ overlapping (DP.chunk_overlap self) segs
    /\ (forall front last,
           segs = (front ++ [last])%list ->
           exists more,
             DP.current_chunk st
             = (DP.last_slice (DP.chunk_overlap self) last ++ more)%list)
    /\ (forall seg, In seg segs -> seg <> [] /\ run_of processed seg)
    /\ (exists before, processed = (before ++ DP.current_chunk st)%list).

(** ** Measures and relations used in the statements on the loop *)

(** The reflections still possible before the ceiling. *)
Definition reflections_left (s : PES.t) : nat :=
  Z.to_nat (3 - reflection_counter s).

(** An upper bound on the number of iterations the driver loop still
    makes from a record, read off the transitions of the handlers: a
    halted record needs none; from the reflection step, each reflection
    below the ceiling costs at most three iterations (itself, technical
    feasibility and operations) and the last one leads to [final_score];
    before the feedback gate, the way through the gate is added when
    feedback is attached. *)
Definition steps_bound (s : PES.t) : nat :=
  if negb (Api.loop_guard s) then 0%nat
  else
    let r := (3 * reflections_left s + 2)%nat in
    let pf := match user_feedback s with
              | None => 1%nat
              | Some _ => (3 + r)%nat
              end in
    let hf := match user_feedback s with
              | None => 1%nat
              | Some _ => S pf
              end in
    let node := current_node s in
    if String.eqb node "image_analyzer" then S (S hf)
    else if String.eqb node "concept_breaker" then S hf
    else if String.eqb node "human_feedback" then hf
    else if String.eqb node "process_feedback" then pf
    else if String.eqb node "technical_feasibility" then (2 + r)%nat
    else if String.eqb node "operations" then (1 + r)%nat
    else if String.eqb node "reflection" then r
    else 1%nat.

(** The log [l'] extends the log [l]: nothing of [l] was removed or
    reordered. *)
Definition extends (l l' : list Message.t) : Prop :=
  exists added : list Message.t, l' = (l ++ added)%list.

(** The record carries the results of the final evaluation it
    stores. *)
Definition mirrors_final_evaluation (s : PES.t) : Prop :=
  exists evaluation,
    final_evaluation s = Some evaluation
    /\ evaluation_score s = Some (FinalEvaluation.feasibility_score evaluation)
    /\ final_recommendation s = FinalEvaluation.executive_summary evaluation.

(** A record the loop can run without a configuration error: its step
    is registered, and it is not at [process_feedback] without
    feedback. *)
Definition runnable (s : PES.t) : Prop :=
  In (current_node s) Graph.nodes
  /\ (current_node s = "process_feedback" -> user_feedback s <> None).

(** A collaborator that answers every call. *)
Definition always_answers (llm : Collaborator) : Prop :=
  forall T n, exists a, llm T n = inr a.

(** * Tactics and first runs *)

(** Unfolds the store monad so that a handler run becomes a term to
    compute with. *)
Ltac store_simpl := cbv beta in *; cbn [state llm_calls fst snd] in *.

Ltac run_monad :=
  unfold Tools.goto, Tools.say, bind, ret, raise, get, modify, ainvoke in *;
  store_simpl.

Example str_int_examples :
  (Py.str_int 0, Py.str_int 3, Py.str_int (-12)) = ("0", "3", "-12").
Proof. reflexivity. Qed.

Example join_example : Py.join ", " ["a"; "b"; "c"] = "a, b, c".
Proof. reflexivity. Qed.

(** ** The handlers, one by one *)

Section HandlerFacts.

Variable llm : Collaborator.

(** With no image the image step is a single assignment. *)
Lemma image_analysis_skip (w : World) :
  concept_images (state w) = [] ->
  Tools.image_analysis llm w
  = (Returned tt,
     mkWorld (set_current_node "concept_breaker" (state w)) (llm_calls w)).
Proof.
  intros Himg. unfold Tools.image_analysis. run_monad.
  rewrite Himg. reflexivity.
Qed.

(** The feedback step when feedback is present. *)
Lemma human_feedback_present (w : World) (fb : UserFeedback.t) :
  user_feedback (state w) = Some fb ->
  Tools.human_feedback w
  = (Returned tt,
     mkWorld (set_current_node "process_feedback" (state w)) (llm_calls w)).
Proof.
  intros Hfb. unfold Tools.human_feedback. run_monad.
  rewrite Hfb. reflexivity.
Qed.

(** The feedback step when feedback is absent. *)
Lemma human_feedback_absent (w : World) :
  user_feedback (state w) = None ->
  Tools.human_feedback w
  = (Returned tt,
     mkWorld
       (set_current_node "human_feedback"
          (set_awaiting_human_input true
             (add_message "human_feedback"
                (Tools.feedback_prompt (components (state w)))
                (state w))))
       (llm_calls w)).
Proof.
  intros Hfb. unfold Tools.human_feedback. run_monad.
  rewrite Hfb. reflexivity.
Qed.

(** The feedback processor without feedback. *)
Lemma process_feedback_absent (w : World) :
  user_feedback (state w) = None ->
  Tools.process_feedback w
  = (Raised (ValueError "No user feedback available to process"), w).
Proof.
  intros Hfb. unfold Tools.process_feedback. run_monad.
  rewrite Hfb. destruct w. reflexivity.
Qed.

(** The feedback processor with feedback: it always returns. *)
Lemma process_feedback_present (w : World) (fb : UserFeedback.t) :
  user_feedback (state w) = Some fb ->
  fst (Tools.process_feedback w) = Returned tt.
Proof.
  intros Hfb. unfold Tools.process_feedback. run_monad.
  rewrite Hfb. destruct (UserFeedback.is_correct fb); reflexivity.
Qed.

(** Reflection at the ceiling. *)
Lemma reflection_at_ceiling (w : World) :
  3 <= reflection_counter (state w) + 1 ->
  Tools.reflection llm w
  = (Returned tt,
     mkWorld
       (set_current_node "final_score"
          (add_message "reflection"
             "Maximum number of reflections reached (3). Moving to final evaluation."
             (counted (state w))))
       (llm_calls w)).
Proof.
  intros Hc. unfold Tools.reflection, counted. run_monad.
  cbn [reflection_counter set_reflection_counter].
  destruct (Z.leb_spec 3 (reflection_counter (state w) + 1)); [|lia].
  reflexivity.
Qed.

(** Reflection below the ceiling, when the collaborator fails. *)
Lemma reflection_failure (w : World) (msg : string) :
  reflection_counter (state w) + 1 < 3 ->
  llm ReflectionNotesSchema (llm_calls w) = inl msg ->
  Tools.reflection llm w
  = (Raised (CollaboratorError msg),
     mkWorld (counted (state w)) (S (llm_calls w))).
Proof.
  intros Hc Hllm. unfold Tools.reflection, counted. run_monad.
  cbn [reflection_counter set_reflection_counter].
  destruct (Z.leb_spec 3 (reflection_counter (state w) + 1)); [lia|].
  store_simpl. rewrite Hllm. reflexivity.
Qed.

(** Reflection below the ceiling, when the collaborator answers. *)
Lemma reflection_answer (w : World) (notes : ReflectionNotes.t) :
  reflection_counter (state w) + 1 < 3 ->
  llm ReflectionNotesSchema (llm_calls w) = inr notes ->
  Tools.reflection llm w
  = (Returned tt,
     mkWorld
       (set_current_node (reflection_route notes)
          (add_message "reflection"
             ("Reflection " ++
              Py.str_int (reflection_counter (state w) + 1) ++
              "/3 complete. Requires iteration: " ++
              Py.str_bool (ReflectionNotes.requires_iteration notes))
             (set_reflection_notes (Some notes) (counted (state w)))))
       (S (llm_calls w))).
Proof.
  intros Hc Hllm. unfold Tools.reflection, counted, reflection_route.
  run_monad. cbn [reflection_counter set_reflection_counter].
  destruct (Z.leb_spec 3 (reflection_counter (state w) + 1)); [lia|].
  store_simpl. rewrite Hllm.
  cbn [state reflection_counter set_reflection_counter set_reflection_notes
       add_message set_messages].
  destruct (Z.ltb_spec (reflection_counter (state w) + 1) 3); [|lia].
  destruct (ReflectionNotes.requires_iteration notes),
           (Py.truthy_list (ReflectionNotes.questions notes)); reflexivity.
Qed.

End HandlerFacts.

(** ** One iteration of the driver loop *)

(** Splits a goal about [Api.dispatch] into one case per branch of its
    [if]/[elif] chain. *)
Ltac split_dispatch node :=
  unfold Api.dispatch in *;
  repeat match goal with
         | H : context [String.eqb node ?s] |- _ =>
             destruct (String.eqb_spec node s)
         | |- context [String.eqb node ?s] =>
             destruct (String.eqb_spec node s)
         end.

(** Runs whichever handler the goal or a hypothesis mentions, splitting
    on the tests the handler makes and on the collaborator's answer. *)
Ltac run_handler :=
  unfold Tools.image_analysis, Tools.concept_breaker, Tools.human_feedback,
    Tools.process_feedback, Tools.technical_feasibility, Tools.operations,
    Tools.reflection, Tools.final_score in *;
  run_monad;
  repeat match goal with
         | H : context [(if ?b then _ else _) _] |- _ =>
             destruct b eqn:?; store_simpl
         | H : context [match ?x with _ => _ end] |- _ =>
             destruct x eqn:?; store_simpl
         | H : (_, _) = (_, _) |- _ => inversion H; subst; clear H
         end.

(** Turns boolean tests in the hypotheses into propositions. *)
Ltac test_props :=
  repeat match goal with
         | H : (_ && _) = true |- _ =>
             apply andb_true_iff in H; destruct H
         | H : (_ && _) = false |- _ => apply andb_false_iff in H
         | H : (_ <=? _) = true |- _ => apply Z.leb_le in H
         | H : (_ <=? _) = false |- _ => apply Z.leb_gt in H
         | H : (_ <? _) = true |- _ => apply Z.ltb_lt in H
         | H : (_ <? _) = false |- _ => apply Z.ltb_ge in H
         end.

(** Turns the boolean tests recorded by [run_handler] into
    propositions. *)
Ltac read_tests :=
  cbn in *;
  repeat match goal with
         | H : (_ && _) = true |- _ =>
             apply andb_true_iff in H; destruct H
         | H : (_ && _) = false |- _ => apply andb_false_iff in H
         | H : (_ <=? _) = true |- _ => apply Z.leb_le in H
         | H : (_ <=? _) = false |- _ => apply Z.leb_gt in H
         | H : (_ <? _) = true |- _ => apply Z.ltb_lt in H
         | H : (_ <? _) = false |- _ => apply Z.ltb_ge in H
         end.

Section IterationFacts.

Variable llm : Collaborator.

Lemma within_bound_iteration (w w' : World) (o : Outcome unit) :
  within_bound (state w) ->
  Api.loop_body llm w = (o, w') ->
  within_bound (state w').
Proof.
  unfold Api.loop_body, within_bound. run_monad.
  intros Hb Hrun.
  split_dispatch (current_node (state w)); run_handler; read_tests.
  all: destruct Hb as [Hb | [Hb Hn]]; try congruence.
  all: try (left; lia).
  all: try (right; split; [ lia | reflexivity ]).
  all: tauto.
Qed.

Lemma parked_properly_iteration (w w' : World) (o : Outcome unit) :
  Api.loop_guard (state w) = true ->
  Api.loop_body llm w = (o, w') ->
  parked_properly (state w').
Proof.
  unfold Api.loop_body, Api.loop_guard, parked_properly. run_monad.
  intros Hg Hrun.
  apply andb_true_iff in Hg. destruct Hg as [_ Hg].
  apply negb_true_iff in Hg.
  split_dispatch (current_node (state w)); run_handler; cbn.
  all: try (intros Haw; congruence).
  all: auto.
Qed.

(** A property of the record that every iteration preserves holds all
    along an execution. *)
Lemma execution_invariant (P : PES.t -> Prop) :
  (forall w o w',
      P (state w) -> Api.loop_guard (state w) = true ->
      Api.loop_body llm w = (o, w') -> P (state w')) ->
  forall w w', Api.execution llm w w' -> P (state w) -> P (state w').
Proof.
  intros Hstep w w' Hexec.
  induction Hexec as [w | w w' w'' Hg Hrun _ IH | w e w' Hg Hrun];
    intros HP.
  - exact HP.
  - apply IH. exact (Hstep _ _ _ HP Hg Hrun).
  - exact (Hstep _ _ _ HP Hg Hrun).
Qed.

(** The store on which the fuelled loop ends is one the execution
    passes through. *)
Lemma driver_loop_execution (fuel : nat) :
  forall w o w',
    Api.driver_loop llm fuel w = Some (o, w') -> Api.execution llm w w'.
Proof.
  induction fuel as [| fuel IH]; intros w o w'; cbn [Api.driver_loop].
  - destruct (Api.loop_guard (state w)); [discriminate|].
    intros H. inversion H. constructor.
  - destruct (Api.loop_guard (state w)) eqn:Hg.
    + destruct (Api.loop_body llm w) as [[[] | e] w1] eqn:Hrun.
      * intros H. eapply Api.exec_iter; eauto.
      * intros H. inversion H; subst. eapply Api.exec_raise; eauto.
    + intros H. inversion H. constructor.
Qed.

(** More fuel does not change a result. *)
Lemma driver_loop_more_fuel (fuel : nat) :
  forall w r,
    Api.driver_loop llm fuel w = Some r ->
    Api.driver_loop llm (S fuel) w = Some r.
Proof.
  induction fuel as [| fuel IH]; intros w r.
  - cbn. destruct (Api.loop_guard (state w)); [discriminate | auto].
  - intros H. cbn [Api.driver_loop] in H.
    change (Api.driver_loop llm (S (S fuel)) w)
      with (if Api.loop_guard (state w)
            then match Api.loop_body llm w with
                 | (Returned _, w1) => Api.driver_loop llm (S fuel) w1
                 | (Raised e, w1) => Some (Raised e, w1)
                 end
            else Some (Returned tt, w)).
    destruct (Api.loop_guard (state w)); [|exact H].
    destruct (Api.loop_body llm w) as [[[] | e] w1]; auto.
Qed.

(** A record that is complete, or awaiting input, stops the loop at
    once: no iteration runs and the store is returned as it is. *)
Lemma driver_loop_halted (fuel : nat) (w : World) :
  Api.loop_guard (state w) = false ->
  Api.driver_loop llm fuel w = Some (Returned tt, w).
Proof.
  intros Hg. destruct fuel; cbn; rewrite Hg; reflexivity.
Qed.

Lemma execution_halted (w w' : World) :
  Api.loop_guard (state w) = false ->
  Api.execution llm w w' -> w' = w.
Proof.
  intros Hg Hexec. destruct Hexec; congruence.
Qed.

(** What the two steps before the feedback gate leave of the control
    fields when they return. *)
Lemma image_analysis_returns (w w' : World) :
  Tools.image_analysis llm w = (Returned tt, w') ->
  current_node (state w') = "concept_breaker"
  /\ process_complete (state w') = process_complete (state w)
  /\ awaiting_human_input (state w') = awaiting_human_input (state w)
  /\ user_feedback (state w') = user_feedback (state w).
Proof.
  intros Hrun. run_handler; cbn; auto.
Qed.

Lemma concept_breaker_returns (w w' : World) :
  Tools.concept_breaker llm w = (Returned tt, w') ->
  current_node (state w') = "human_feedback"
  /\ process_complete (state w') = process_complete (state w)
  /\ awaiting_human_input (state w') = awaiting_human_input (state w)
  /\ user_feedback (state w') = user_feedback (state w).
Proof.
  intros Hrun. run_handler; cbn; auto.
Qed.

(** Unfolding of the loop by one iteration. *)
Lemma driver_loop_unfold (fuel : nat) (w : World) :
  Api.loop_guard (state w) = true ->
  Api.driver_loop llm (S fuel) w
  = match Api.dispatch llm (current_node (state w)) w with
    | (Returned _, w') => Api.driver_loop llm fuel w'
    | (Raised e, w') => Some (Raised e, w')
    end.
Proof.
  intros Hg. cbn [Api.driver_loop]. rewrite Hg. reflexivity.
Qed.

(** The loop on a new record needs at most three iterations: it ends
    with an exception, or parked at the feedback step, awaiting
    input. *)
Lemma new_session_loop (concept : string) (images : list string)
    (calls : nat) :
  (exists e w,
      Api.driver_loop llm 3 (mkWorld (PES.new concept images) calls)
      = Some (Raised e, w))
  \/ (exists w,
         Api.driver_loop llm 3 (mkWorld (PES.new concept images) calls)
         = Some (Returned tt, w)
         /\ current_node (state w) = "human_feedback"
         /\ process_complete (state w) = false
         /\ awaiting_human_input (state w) = true).
Proof.
  set (w0 := mkWorld (PES.new concept images) calls).
  rewrite (driver_loop_unfold 2 w0 eq_refl).
  change (current_node (state w0)) with "image_analyzer".
  change (Api.dispatch llm "image_analyzer" w0)
    with (Tools.image_analysis llm w0).
  destruct (Tools.image_analysis llm w0) as [[[] | e] w1] eqn:H1;
    [| left; eauto].
  destruct (image_analysis_returns w0 w1 H1) as (Hn1 & Hc1 & Ha1 & Hf1).
  assert (Hg1 : Api.loop_guard (state w1) = true).
  { unfold Api.loop_guard. rewrite Hc1, Ha1. reflexivity. }
  rewrite (driver_loop_unfold 1 w1 Hg1), Hn1.
  change (Api.dispatch llm "concept_breaker" w1)
    with (Tools.concept_breaker llm w1).
  destruct (Tools.concept_breaker llm w1) as [[[] | e] w2] eqn:H2;
    [| left; eauto].
  destruct (concept_breaker_returns w1 w2 H2) as (Hn2 & Hc2 & Ha2 & Hf2).
  assert (Hg2 : Api.loop_guard (state w2) = true).
  { unfold Api.loop_guard. rewrite Hc2, Ha2, Hc1, Ha1. reflexivity. }
  rewrite (driver_loop_unfold 0 w2 Hg2), Hn2.
  change (Api.dispatch llm "human_feedback" w2) with (Tools.human_feedback w2).
  rewrite human_feedback_absent by (rewrite Hf2, Hf1; reflexivity).
  right. eexists. split.
  - apply driver_loop_halted. unfold Api.loop_guard. cbn.
    apply andb_false_r.
  - cbn. rewrite Hc2, Hc1. auto.
Qed.

(** The endpoint always answers: with an error of status 500, or with a
    record parked at the feedback step, awaiting input. *)
Lemma evaluate_packaging_answers (request : Api.EvaluationRequest.t)
    (calls : nat) :
  (exists detail calls',
      Api.evaluate_packaging llm 3 request calls
      = Some (Raised (HTTPException 500 detail), calls'))
  \/ (exists response calls',
         Api.evaluate_packaging llm 3 request calls
         = Some (Returned response, calls')
         /\ Api.EvaluationResponse.current_node response = "human_feedback"
         /\ Api.EvaluationResponse.process_complete response = false
         /\ awaiting_human_input (Api.EvaluationResponse.state response)
            = true).
Proof.
  unfold Api.evaluate_packaging.
  destruct (new_session_loop
              (Api.EvaluationRequest.packaging_concept request)
              (Api.EvaluationRequest.concept_images request) calls)
    as [(e & w & Hloop) | (w & Hloop & Hn & Hc & Ha)];
    rewrite Hloop.
  - left. eauto.
  - right. do 2 eexists. split; [reflexivity |]. cbn. auto.
Qed.

End IterationFacts.

(** * The workflow properties *)

(** ** Bounded reflection *)

(** C1. Bounded reflection.  Along every execution of the driver loop
    that starts from a record within the bound (counter at most 2, or
    at 3 and about to enter [final_score]), and so along every execution
    from a newly constructed record, [reflection_counter] never exceeds
    3.  The reflection step adds one to the counter on every entry,
    whatever the collaborator then does; and when the counter so reaches
    3 or more, the step returns with next step [final_score] without
    calling the collaborator, for every collaborator. *)
Theorem bounded_reflection (llm : Collaborator) :
  (forall w0 w,
      within_bound (state w0) ->
      Api.execution llm w0 w ->
      reflection_counter (state w) <= 3)
  /\ (forall concept images calls w,
         Api.execution llm (mkWorld (PES.new concept images) calls) w ->
         reflection_counter (state w) <= 3)
  /\ (forall w,
         reflection_counter (state (snd (Tools.reflection llm w)))
         = reflection_counter (state w) + 1)
  /\ (forall w,
         3 <= reflection_counter (state w) + 1 ->
         fst (Tools.reflection llm w) = Returned tt
         /\ current_node (state (snd (Tools.reflection llm w))) = "final_score"
         /\ llm_calls (snd (Tools.reflection llm w)) = llm_calls w).
Proof.
  assert (Hgen : forall w0 w,
             within_bound (state w0) ->
             Api.execution llm w0 w ->
             reflection_counter (state w) <= 3).
  { intros w0 w Hb Hexec.
    assert (Hw : within_bound (state w)).
    { apply (execution_invariant llm within_bound) with (w := w0); auto.
      intros w1 o w2 HP _ Hrun.
      exact (within_bound_iteration llm w1 w2 o HP Hrun). }
    destruct Hw as [Hw | [Hw _]]; lia. }
  split; [exact Hgen|]. split; [|split].
  - intros concept images calls w Hexec.
    apply Hgen with (w0 := mkWorld (PES.new concept images) calls);
      [ left; cbn; lia | exact Hexec ].
  - intros w.
    destruct (Z.le_gt_cases 3 (reflection_counter (state w) + 1)) as [Hc | Hc].
    + rewrite (reflection_at_ceiling llm w Hc). reflexivity.
    + destruct (llm ReflectionNotesSchema (llm_calls w)) as [msg | notes] eqn:Hllm.
      * rewrite (reflection_failure llm w msg); [reflexivity | lia | exact Hllm].
      * rewrite (reflection_answer llm w notes); [reflexivity | lia | exact Hllm].
  - intros w Hc. rewrite (reflection_at_ceiling llm w Hc). cbn. auto.
Qed.

Lemma bounded_reflection_witness :
  reflection_counter (state Samples.finished) <= 3
  /\ (fst (Tools.reflection Samples.insisting_llm
              (mkWorld (Samples.at_reflection 2) 0)) = Returned tt
      /\ current_node
           (state (snd (Tools.reflection Samples.insisting_llm
                          (mkWorld (Samples.at_reflection 2) 0))))
         = "final_score"
      /\ llm_calls (snd (Tools.reflection Samples.insisting_llm
                           (mkWorld (Samples.at_reflection 2) 0))) = 0%nat).
Proof.
  destruct (bounded_reflection Samples.insisting_llm) as (Hrun & _ & _ & Hceil).
  split.
  - apply (Hrun (Samples.resumed_world Samples.accept)).
    + left. cbn. lia.
    + apply driver_loop_execution with (fuel := 12%nat) (o := Returned tt).
      vm_compute. reflexivity.
  - apply (Hceil (mkWorld (Samples.at_reflection 2) 0)). cbn. lia.
Defined.

Example finished_record :
  (current_node (state Samples.finished),
   process_complete (state Samples.finished),
   reflection_counter (state Samples.finished),
   llm_calls Samples.finished)
  = ("final_score", true, 3, 10%nat).
Proof. vm_compute. reflexivity. Qed.

(** ** The initial step *)

(** C2.  What the constructor does with an empty image list: the new
    record starts at [image_analyzer], not at [concept_breaker]; the
    first iteration of the driver loop on it runs the image step, which
    returns at once with next step [concept_breaker] and no call of the
    collaborator.  The initial step is [image_analyzer] for every image
    list, and it is the entry point of the graph as well. *)
Theorem initial_step_ignores_images (llm : Collaborator)
    (concept : string) (calls : nat) :
  current_node (PES.new concept []) = "image_analyzer"
  /\ Api.loop_guard (PES.new concept []) = true
  /\ Api.loop_body llm (mkWorld (PES.new concept []) calls)
     = Tools.image_analysis llm (mkWorld (PES.new concept []) calls)
  /\ Tools.image_analysis llm (mkWorld (PES.new concept []) calls)
     = (Returned tt,
        mkWorld (set_current_node "concept_breaker" (PES.new concept []))
                calls)
  /\ (forall images, current_node (PES.new concept images) = "image_analyzer")
  /\ Graph.entry_point = "image_analyzer".
Proof.
  repeat split.
Qed.

(** ** The human feedback gate *)

(** C3, as the claim states it, fails on the parked record once
    feedback is attached: the feedback step moves on to
    [process_feedback] and the awaiting flag is still up, with feedback
    present. *)
Lemma human_feedback_keeps_awaiting_flag :
  user_feedback (Samples.parked_with_feedback Samples.accept)
  = Some Samples.accept
  /\ awaiting_human_input (Samples.parked_with_feedback Samples.accept) = true
  /\ fst (Tools.human_feedback
            (mkWorld (Samples.parked_with_feedback Samples.accept) 1))
     = Returned tt
  /\ awaiting_human_input
       (state (snd (Tools.human_feedback
                      (mkWorld (Samples.parked_with_feedback Samples.accept) 1))))
     = true
  /\ current_node
       (state (snd (Tools.human_feedback
                      (mkWorld (Samples.parked_with_feedback Samples.accept) 1))))
     = "process_feedback"
  /\ user_feedback
       (state (snd (Tools.human_feedback
                      (mkWorld (Samples.parked_with_feedback Samples.accept) 1))))
     = Some Samples.accept.
Proof.
  vm_compute. repeat split.
Qed.

(** C3, amended.  When the feedback step runs on a record that holds
    feedback, it returns the record with next step [process_feedback]
    and every other field as it was, the awaiting flag included.  Along
    every execution of the driver loop from a properly parked record,
    and so from every newly constructed record, a record flagged as
    awaiting input sits at the feedback step and holds no feedback. *)
Theorem human_feedback_resume (llm : Collaborator) :
  (forall w fb,
      user_feedback (state w) = Some fb ->
      Tools.human_feedback w
      = (Returned tt,
         mkWorld (set_current_node "process_feedback" (state w))
                 (llm_calls w)))
  /\ (forall w0 w,
         parked_properly (state w0) ->
         Api.execution llm w0 w ->
         awaiting_human_input (state w) = true ->
         current_node (state w) = "human_feedback"
         /\ user_feedback (state w) = None)
  /\ (forall concept images calls w,
         Api.execution llm (mkWorld (PES.new concept images) calls) w ->
         awaiting_human_input (state w) = true ->
         current_node (state w) = "human_feedback"
         /\ user_feedback (state w) = None).
Proof.
  assert (Hgen : forall w0 w,
             parked_properly (state w0) ->
             Api.execution llm w0 w -> parked_properly (state w)).
  { intros w0 w Hp Hexec.
    apply (execution_invariant llm parked_properly) with (w := w0); auto.
    intros w1 o w2 _ Hg Hrun.
    exact (parked_properly_iteration llm w1 w2 o Hg Hrun). }
  split; [| split].
  - intros w fb Hfb. exact (human_feedback_present w fb Hfb).
  - intros w0 w Hp Hexec. exact (Hgen w0 w Hp Hexec).
  - intros concept images calls w Hexec.
    apply (Hgen (mkWorld (PES.new concept images) calls) w); [| exact Hexec].
    intros Haw. cbn in Haw. discriminate.
Qed.

Lemma human_feedback_resume_witness :
  Tools.human_feedback (Samples.resumed_world Samples.reject)
  = (Returned tt,
     mkWorld (set_current_node "process_feedback"
                (state (Samples.resumed_world Samples.reject)))
             (llm_calls (Samples.resumed_world Samples.reject)))
  /\ (current_node (state Samples.parked_world) = "human_feedback"
      /\ user_feedback (state Samples.parked_world) = None).
Proof.
  destruct (human_feedback_resume Samples.insisting_llm) as (Hfb & _ & Hnew).
  split.
  - apply (Hfb (Samples.resumed_world Samples.reject) Samples.reject).
    vm_compute. reflexivity.
  - apply (Hnew "A tray with a snap lid" [] 0%nat Samples.parked_world).
    + apply driver_loop_execution with (fuel := 3%nat) (o := Returned tt).
      vm_compute. reflexivity.
    + vm_compute. reflexivity.
Defined.

(** ** Router and transitions *)

(** C4, as the claim states it, fails: [final_score] is not an allowed
    next step of [image_analyzer], yet for a record that declares it the
    router returns it as it is, and the next iteration of the driver
    loop runs the [final_score] step to completion; no error is
    raised. *)
Lemma router_accepts_disallowed_step :
  Graph.allowed "image_analyzer" (current_node Samples.misrouted) = false
  /\ Graph.router Samples.misrouted = "final_score"
  /\ fst (Api.loop_body Samples.insisting_llm (mkWorld Samples.misrouted 0))
     = Returned tt
  /\ process_complete
       (state (snd (Api.loop_body Samples.insisting_llm
                      (mkWorld Samples.misrouted 0))))
     = true.
Proof.
  vm_compute. repeat split.
Qed.

(** C4, amended.  The router only reads the record: it returns the
    terminal sentinel when the record is complete and otherwise the
    declared next step as it is, with no membership test and no
    correction.  Transitions are valid by construction: when the handler
    of a registered step runs on a record that is not complete and
    returns, the router's result is in that step's allowed-next set.
    The only test the driver loop makes is that the step is registered:
    for any other name it raises the unknown-node error and leaves the
    store as it was. *)
Theorem transitions_valid_by_construction (llm : Collaborator) :
  (forall s,
      Graph.router s
      = if process_complete s then Graph.END else current_node s)
  /\ (forall node w w',
         In node Graph.nodes ->
         process_complete (state w) = false ->
         Api.dispatch llm node w = (Returned tt, w') ->
         Graph.allowed node (Graph.router (state w')) = true)
  /\ (forall node w,
         ~ In node Graph.nodes ->
         Api.dispatch llm node w
         = (Raised (HTTPException 400 ("Unknown node: " ++ node)), w)).
Proof.
  split; [| split].
  - intros s. unfold Graph.router.
    destruct (process_complete s), (awaiting_human_input s); reflexivity.
  - intros node w w' Hin Hpc Hrun.
    unfold Graph.router.
    cbn in Hin.
    repeat (destruct Hin as [<- | Hin]); try contradiction;
      cbn [Api.dispatch String.eqb Ascii.eqb Bool.eqb] in Hrun;
      run_handler; cbn; rewrite ?Hpc;
      repeat match goal with
             | |- context [if ?b then _ else _] => destruct b
             end;
      reflexivity.
  - intros node w Hnot.
    unfold Api.dispatch.
    repeat match goal with
           | |- context [String.eqb node ?s] =>
               destruct (String.eqb_spec node s);
               [ exfalso; apply Hnot; subst node; cbn; tauto |]
           end.
    reflexivity.
Qed.

Lemma transitions_valid_by_construction_witness :
  Graph.allowed "reflection"
    (Graph.router
       (state (snd (Tools.reflection Samples.insisting_llm
                      (mkWorld (Samples.at_reflection 0) 0)))))
  = true
  /\ Api.dispatch Samples.insisting_llm "packaging" (mkWorld Samples.fresh 0)
     = (Raised (HTTPException 400 ("Unknown node: " ++ "packaging")),
        mkWorld Samples.fresh 0).
Proof.
  destruct (transitions_valid_by_construction Samples.insisting_llm)
    as (_ & Hok & Hunknown).
  split.
  - apply (Hok "reflection" (mkWorld (Samples.at_reflection 0) 0)).
    + cbn. tauto.
    + reflexivity.
    + vm_compute. reflexivity.
  - apply (Hunknown "packaging" (mkWorld Samples.fresh 0)).
    cbn. intros H.
    repeat (destruct H as [H | H]; [discriminate H |]). exact H.
Defined.

(** ** Failure of the collaborator *)

(** C5, as the claim states it, fails in the reflection step: when the
    collaborator fails on the first reflection, the record is left with
    its counter at 1 instead of 0. *)
Lemma reflection_failure_keeps_increment :
  Tools.reflection Samples.failing_llm (mkWorld (Samples.at_reflection 0) 0)
  = (Raised (CollaboratorError "model unavailable"),
     mkWorld (Samples.at_reflection 1) 1)
  /\ reflection_counter (Samples.at_reflection 0) = 0
  /\ reflection_counter (Samples.at_reflection 1) = 1
  /\ Samples.at_reflection 1 <> Samples.at_reflection 0.
Proof.
  repeat split; try (vm_compute; reflexivity).
  intros H. apply (f_equal reflection_counter) in H. vm_compute in H.
  discriminate H.
Qed.

(** C5, amended.  When an iteration of the driver loop ends with an
    exception, the record is exactly as it was before the step began,
    except in the reflection step, where the record is as before with
    the counter already incremented by one.  In particular a failure of
    the collaborator inside [technical_feasibility] makes the step raise
    and leaves the whole record, and so [technical_assessment] and
    [current_node], untouched. *)
Theorem failure_leaves_record (llm : Collaborator) :
  (forall node w e w',
      Api.dispatch llm node w = (Raised e, w') ->
      state w'
      = if String.eqb node "reflection" then counted (state w) else state w)
  /\ (forall w msg,
         llm TechnicalAssessmentSchema (llm_calls w) = inl msg ->
         Tools.technical_feasibility llm w
         = (Raised (CollaboratorError msg),
            mkWorld (state w) (S (llm_calls w)))).
Proof.
  split.
  - intros node w e w' Hrun. unfold counted.
    split_dispatch node; run_handler; try reflexivity; try discriminate.
  - intros w msg Hllm. unfold Tools.technical_feasibility. run_monad.
    rewrite Hllm. reflexivity.
Qed.

Lemma failure_leaves_record_witness :
  state (snd (Api.dispatch Samples.failing_llm "technical_feasibility"
                (Samples.resumed_world Samples.accept)))
  = state (Samples.resumed_world Samples.accept)
  /\ Tools.technical_feasibility Samples.failing_llm
       (Samples.resumed_world Samples.accept)
     = (Raised (CollaboratorError "model unavailable"),
        mkWorld (state (Samples.resumed_world Samples.accept))
                (S (llm_calls (Samples.resumed_world Samples.accept)))).
Proof.
  destruct (failure_leaves_record Samples.failing_llm) as (Hany & Htech).
  split.
  - apply (Hany "technical_feasibility"
                (Samples.resumed_world Samples.accept)
                (CollaboratorError "model unavailable")).
    vm_compute. reflexivity.
  - apply (Htech (Samples.resumed_world Samples.accept) "model unavailable").
    reflexivity.
Defined.

(** ** Routing of the reflection step below the ceiling *)

(** C6.  When the reflection step runs and its incremented counter is
    below the ceiling, and the collaborator answers with notes, the step
    returns, and its next step is [technical_feasibility] if the notes
    require iteration and raise at least one question, [operations] if
    they require iteration and raise no question, and [final_score] if
    they do not require iteration. *)
Theorem reflection_routing_below_ceiling (llm : Collaborator) (w : World)
    (notes : ReflectionNotes.t) :
  reflection_counter (state w) + 1 < 3 ->
  llm ReflectionNotesSchema (llm_calls w) = inr notes ->
  fst (Tools.reflection llm w) = Returned tt
  /\ (ReflectionNotes.requires_iteration notes = true ->
      ReflectionNotes.questions notes <> [] ->
      current_node (state (snd (Tools.reflection llm w)))
      = "technical_feasibility")
  /\ (ReflectionNotes.requires_iteration notes = true ->
      ReflectionNotes.questions notes = [] ->
      current_node (state (snd (Tools.reflection llm w))) = "operations")
  /\ (ReflectionNotes.requires_iteration notes = false ->
      current_node (state (snd (Tools.reflection llm w))) = "final_score").
Proof.
  intros Hc Hllm.
  rewrite (reflection_answer llm w notes Hc Hllm).
  unfold reflection_route. cbn [fst snd state current_node set_current_node].
  repeat split.
  - intros Hit Hq. rewrite Hit.
    destruct (ReflectionNotes.questions notes); [contradiction | reflexivity].
  - intros Hit Hq. rewrite Hit, Hq. reflexivity.
  - intros Hit. rewrite Hit. reflexivity.
Qed.

Lemma reflection_routing_below_ceiling_witness :
  fst (Tools.reflection Samples.insisting_llm
         (mkWorld (Samples.at_reflection 1) 0)) = Returned tt
  /\ current_node
       (state (snd (Tools.reflection Samples.insisting_llm
                      (mkWorld (Samples.at_reflection 1) 0))))
     = "technical_feasibility".
Proof.
  destruct (reflection_routing_below_ceiling Samples.insisting_llm
              (mkWorld (Samples.at_reflection 1) 0) Samples.insisting_notes)
    as (Hret & Htech & _ & _).
  - cbn. lia.
  - reflexivity.
  - split; [exact Hret |].
    apply Htech; [reflexivity | discriminate].
Defined.

(** ** Processing of the feedback *)

(** C7.  When [process_feedback] runs on a record that holds feedback,
    it returns, the resulting record holds no feedback, and the next
    step is [technical_feasibility] when the feedback is marked correct
    and [concept_breaker] when it is not. *)
Theorem process_feedback_clears_and_routes (w : World) (fb : UserFeedback.t) :
  user_feedback (state w) = Some fb ->
  fst (Tools.process_feedback w) = Returned tt
  /\ user_feedback (state (snd (Tools.process_feedback w))) = None
  /\ current_node (state (snd (Tools.process_feedback w)))
     = (if UserFeedback.is_correct fb
        then "technical_feasibility" else "concept_breaker").
Proof.
  intros Hfb. unfold Tools.process_feedback. run_monad.
  rewrite Hfb. destruct (UserFeedback.is_correct fb); cbn; auto.
Qed.

Lemma process_feedback_clears_and_routes_witness :
  (fst (Tools.process_feedback (Samples.resumed_world Samples.reject))
   = Returned tt
   /\ user_feedback
        (state (snd (Tools.process_feedback
                       (Samples.resumed_world Samples.reject)))) = None
   /\ current_node
        (state (snd (Tools.process_feedback
                       (Samples.resumed_world Samples.reject))))
      = (if UserFeedback.is_correct Samples.reject
         then "technical_feasibility" else "concept_breaker"))
  /\ (fst (Tools.process_feedback (Samples.resumed_world Samples.accept))
      = Returned tt
      /\ user_feedback
           (state (snd (Tools.process_feedback
                          (Samples.resumed_world Samples.accept)))) = None
      /\ current_node
           (state (snd (Tools.process_feedback
                          (Samples.resumed_world Samples.accept))))
         = (if UserFeedback.is_correct Samples.accept
            then "technical_feasibility" else "concept_breaker")).
Proof.
  split.
  - apply (process_feedback_clears_and_routes
             (Samples.resumed_world Samples.reject) Samples.reject).
    vm_compute. reflexivity.
  - apply (process_feedback_clears_and_routes
             (Samples.resumed_world Samples.accept) Samples.accept).
    vm_compute. reflexivity.
Defined.

(** C8.  [process_feedback] raises exactly when the record holds no
    feedback; the exception is the [ValueError] of the source and the
    store is left as it was.  The driver loop does not absorb it: an
    iteration that dispatches to [process_feedback] on such a record
    ends the loop with that exception. *)
Theorem process_feedback_missing_feedback (llm : Collaborator) (w : World) :
  ((exists e, fst (Tools.process_feedback w) = Raised e)
   <-> user_feedback (state w) = None)
  /\ (user_feedback (state w) = None ->
      Tools.process_feedback w
      = (Raised (ValueError "No user feedback available to process"), w))
  /\ (user_feedback (state w) = None ->
      current_node (state w) = "process_feedback" ->
      Api.loop_guard (state w) = true ->
      forall fuel,
        Api.driver_loop llm (S fuel) w
        = Some (Raised (ValueError "No user feedback available to process"),
                w)).
Proof.
  split; [| split].
  - split.
    + intros [e He].
      destruct (user_feedback (state w)) as [fb |] eqn:Hfb; [| reflexivity].
      rewrite (process_feedback_present w fb Hfb) in He. discriminate He.
    + intros Hfb. rewrite (process_feedback_absent w Hfb).
      eexists. reflexivity.
  - exact (process_feedback_absent w).
  - intros Hfb Hnode Hg fuel.
    cbn [Api.driver_loop]. rewrite Hg.
    unfold Api.loop_body. run_monad. rewrite Hnode.
    cbn [Api.dispatch String.eqb Ascii.eqb Bool.eqb].
    rewrite (process_feedback_absent w Hfb). reflexivity.
Qed.

Lemma process_feedback_missing_feedback_witness :
  Tools.process_feedback (mkWorld Samples.out_of_order 0)
  = (Raised (ValueError "No user feedback available to process"),
     mkWorld Samples.out_of_order 0)
  /\ Api.driver_loop Samples.insisting_llm 1 (mkWorld Samples.out_of_order 0)
     = Some (Raised (ValueError "No user feedback available to process"),
             mkWorld Samples.out_of_order 0).
Proof.
  destruct (process_feedback_missing_feedback Samples.insisting_llm
              (mkWorld Samples.out_of_order 0)) as (_ & Hraise & Hloop).
  split.
  - apply Hraise. reflexivity.
  - apply Hloop; reflexivity.
Defined.

(** ** Completion *)

(** C9.  The driver loop on a complete record returns that same store
    at once: no iteration runs.  And when the [final_score] step
    returns, the record is complete and its [current_node] is as before
    the step; the loop on the resulting store is again a no-op, so no
    later iteration changes [current_node]. *)
Theorem completion_is_terminal (llm : Collaborator) :
  (forall w fuel,
      process_complete (state w) = true ->
      Api.driver_loop llm fuel w = Some (Returned tt, w))
  /\ (forall w w',
         process_complete (state w) = true ->
         Api.execution llm w w' -> w' = w)
  /\ (forall w w',
         Tools.final_score llm w = (Returned tt, w') ->
         process_complete (state w') = true
         /\ current_node (state w') = current_node (state w)
         /\ (forall fuel, Api.driver_loop llm fuel w' = Some (Returned tt, w'))
         /\ (forall w'',
                Api.execution llm w' w'' ->
                current_node (state w'') = current_node (state w'))).
Proof.
  assert (Hguard : forall w,
             process_complete (state w) = true ->
             Api.loop_guard (state w) = false).
  { intros w Hpc. unfold Api.loop_guard. rewrite Hpc. reflexivity. }
  split; [| split].
  - intros w fuel Hpc. apply driver_loop_halted. auto.
  - intros w w' Hpc Hexec. apply (execution_halted llm w w'); auto.
  - intros w w' Hrun.
    assert (Hpc : process_complete (state w') = true
                  /\ current_node (state w') = current_node (state w)).
    { run_handler. cbn. auto. }
    destruct Hpc as [Hpc Hnode].
    repeat split; auto.
    + intros fuel. apply driver_loop_halted. auto.
    + intros w'' Hexec.
      rewrite (execution_halted llm w' w'' (Hguard w' Hpc) Hexec).
      reflexivity.
Qed.

Lemma completion_is_terminal_witness :
  Api.driver_loop Samples.insisting_llm 0 Samples.finished
  = Some (Returned tt, Samples.finished)
  /\ (process_complete (state (snd (Tools.final_score Samples.insisting_llm
                                     (mkWorld Samples.misrouted 0)))) = true
      /\ current_node (state (snd (Tools.final_score Samples.insisting_llm
                                     (mkWorld Samples.misrouted 0))))
         = current_node (state (mkWorld Samples.misrouted 0))).
Proof.
  destruct (completion_is_terminal Samples.insisting_llm)
    as (Hidem & _ & Hfinal).
  split.
  - apply Hidem. vm_compute. reflexivity.
  - destruct (Hfinal (mkWorld Samples.misrouted 0)
                (snd (Tools.final_score Samples.insisting_llm
                        (mkWorld Samples.misrouted 0))))
      as (Hpc & Hnode & _).
    + vm_compute. reflexivity.
    + split; [exact Hpc | exact Hnode].
Defined.

(** ** The image step without images *)

(** C10.  On a record whose image list is empty the image step returns
    the record with [current_node] set to [concept_breaker] and every
    other field as it was: the message log and the [image_analysis]
    field are unchanged, and the collaborator is not called. *)
Theorem image_analysis_empty_frame (llm : Collaborator) (w : World) :
  concept_images (state w) = [] ->
  Tools.image_analysis llm w
  = (Returned tt,
     mkWorld (set_current_node "concept_breaker" (state w)) (llm_calls w))
  /\ current_node (state (snd (Tools.image_analysis llm w)))
     = "concept_breaker"
  /\ messages (state (snd (Tools.image_analysis llm w))) = messages (state w)
  /\ PES.image_analysis (state (snd (Tools.image_analysis llm w)))
     = PES.image_analysis (state w)
  /\ llm_calls (snd (Tools.image_analysis llm w)) = llm_calls w.
Proof.
  intros Himg. rewrite (image_analysis_skip llm w Himg).
  repeat split.
Qed.

Lemma image_analysis_empty_frame_witness :
  Tools.image_analysis Samples.failing_llm (mkWorld Samples.fresh 4)
  = (Returned tt,
     mkWorld (set_current_node "concept_breaker"
                (state (mkWorld Samples.fresh 4)))
             (llm_calls (mkWorld Samples.fresh 4)))
  /\ PES.image_analysis
       (state (snd (Tools.image_analysis Samples.failing_llm
                      (mkWorld Samples.fresh 4))))
     = None.
Proof.
  destruct (image_analysis_empty_frame Samples.failing_llm
              (mkWorld Samples.fresh 4)) as (Hret & _ & _ & Himg & _).
  - reflexivity.
  - split; [exact Hret | exact Himg].
Defined.

(** * Further properties of the workflow *)

Section LoopFacts.

Variable llm : Collaborator.

(** What any handler leaves alone or only moves one way, whatever the
    outcome. *)
Lemma dispatch_frame (node : string) (w w' : World) (o : Outcome unit) :
  Api.dispatch llm node w = (o, w') ->
  packaging_concept (state w') = packaging_concept (state w)
  /\ concept_images (state w') = concept_images (state w)
  /\ feedback_iteration (state w') = feedback_iteration (state w)
  /\ extends (messages (state w)) (messages (state w'))
  /\ (llm_calls w <= llm_calls w' <= S (llm_calls w))%nat
  /\ reflection_counter (state w) <= reflection_counter (state w')
  /\ (process_complete (state w) = true -> process_complete (state w') = true)
  /\ (awaiting_human_input (state w) = true ->
      awaiting_human_input (state w') = true).
Proof.
  intros Hrun. unfold extends.
  split_dispatch node; run_handler; cbn;
    repeat split; auto; try lia;
    first [ exists []; rewrite app_nil_r; reflexivity
          | eexists; reflexivity
          | rewrite <- app_assoc; eexists; reflexivity ].
Qed.

(** A relation between stores that is reflexive, transitive and
    established by every iteration holds between the ends of every
    execution. *)
Lemma execution_relation (R : World -> World -> Prop) :
  (forall w, R w w) ->
  (forall a b c, R a b -> R b c -> R a c) ->
  (forall w o w',
      Api.loop_guard (state w) = true ->
      Api.loop_body llm w = (o, w') -> R w w') ->
  forall w w', Api.execution llm w w' -> R w w'.
Proof.
  intros Hrefl Htrans Hstep w w' Hexec.
  induction Hexec as [w | w w' w'' Hg Hrun _ IH | w e w' Hg Hrun].
  - apply Hrefl.
  - exact (Htrans _ _ _ (Hstep _ _ _ Hg Hrun) IH).
  - exact (Hstep _ _ _ Hg Hrun).
Qed.

Lemma loop_body_dispatch (w : World) :
  Api.loop_body llm w = Api.dispatch llm (current_node (state w)) w.
Proof. reflexivity. Qed.

Lemma loop_guard_true (s : PES.t) :
  Api.loop_guard s = true ->
  process_complete s = false /\ awaiting_human_input s = false.
Proof.
  unfold Api.loop_guard. intros H. apply andb_true_iff in H.
  destruct H as [H1 H2]. apply negb_true_iff in H1, H2. auto.
Qed.

(** Every iteration that returns lowers the bound. *)
Lemma steps_bound_decreases (w w' : World) :
  Api.loop_guard (state w) = true ->
  Api.loop_body llm w = (Returned tt, w') ->
  (steps_bound (state w') < steps_bound (state w))%nat.
Proof.
  intros Hg Hrun. rewrite loop_body_dispatch in Hrun.
  destruct (loop_guard_true _ Hg) as [Hpc Haw].
  unfold steps_bound at 2. rewrite Hg. cbn [negb].
  split_dispatch (current_node (state w)); run_handler;
    unfold steps_bound, Api.loop_guard, reflections_left;
    cbn -[Z.sub Z.add Z.opp Z.to_nat Nat.mul Z.leb Z.ltb] in *;
    rewrite ?Hpc, ?Haw; cbn [negb andb];
    repeat match goal with
           | H : user_feedback _ = _ |- _ => rewrite H
           | |- context [match user_feedback ?s with _ => _ end] =>
               destruct (user_feedback s)
           end;
    test_props; try lia.
Qed.

Lemma steps_bound_le (s : PES.t) :
  (steps_bound s <= 3 * reflections_left s + 8)%nat.
Proof.
  unfold steps_bound.
  destruct (negb (Api.loop_guard s)); [lia |].
  destruct (user_feedback s);
    repeat match goal with
           | |- context [if ?b then _ else _] => destruct b
           end; lia.
Qed.

(** Fuel above the bound is enough. *)
Lemma terminates_within (fuel : nat) :
  forall w,
    (steps_bound (state w) <= fuel)%nat ->
    exists o w',
      Api.driver_loop llm fuel w = Some (o, w')
      /\ (o = Returned tt -> Api.loop_guard (state w') = false).
Proof.
  induction fuel as [| fuel IH]; intros w Hle.
  - destruct (Api.loop_guard (state w)) eqn:Hg.
    + exfalso. unfold steps_bound in Hle. rewrite Hg in Hle. cbn in Hle.
      destruct (user_feedback (state w));
        repeat match type of Hle with
               | context [if ?b then _ else _] => destruct b
               end; lia.
    + exists (Returned tt), w. cbn. rewrite Hg. auto.
  - destruct (Api.loop_guard (state w)) eqn:Hg.
    + cbn [Api.driver_loop]. rewrite Hg.
      destruct (Api.loop_body llm w) as [[[] | e] w1] eqn:Hrun.
      * apply IH.
        pose proof (steps_bound_decreases w w1 Hg Hrun). lia.
      * exists (Raised e), w1. split; [reflexivity | discriminate].
    + exists (Returned tt), w. rewrite driver_loop_halted by exact Hg. auto.
Qed.

(** The three ways an iteration can raise. *)
Lemma dispatch_raises (node : string) (w w' : World) (e : Exception) :
  Api.dispatch llm node w = (Raised e, w') ->
  (exists T msg,
      e = CollaboratorError msg /\ llm T (llm_calls w) = inl msg
      /\ llm_calls w' = S (llm_calls w))
  \/ (e = ValueError "No user feedback available to process"
      /\ node = "process_feedback" /\ user_feedback (state w) = None
      /\ w' = w)
  \/ (e = HTTPException 400 ("Unknown node: " ++ node)
      /\ ~ In node Graph.nodes /\ w' = w).
Proof.
  intros Hrun.
  split_dispatch node; run_handler;
    try solve [left; do 2 eexists; repeat split; eassumption];
    try solve [right; left; repeat split; auto].
  right. right. split; [reflexivity | split; [| reflexivity]].
  cbn. intros Hin.
  repeat (destruct Hin as [Hin | Hin]; [congruence |]). exact Hin.
Qed.

(** With a collaborator that answers, a runnable record makes a full
    iteration and stays runnable. *)
Lemma runnable_iteration (w : World) :
  always_answers llm ->
  runnable (state w) ->
  exists w',
    Api.loop_body llm w = (Returned tt, w') /\ runnable (state w').
Proof.
  intros Hans [Hin Hpf]. rewrite loop_body_dispatch.
  destruct (Api.dispatch llm (current_node (state w)) w)
    as [[[] | e] w1] eqn:Hrun.
  - exists w1. split; [reflexivity |]. unfold runnable.
    clear Hin.
    split_dispatch (current_node (state w)); run_handler; cbn;
      rewrite ?e;
      (split;
       [ repeat (first [left; reflexivity | right])
       | intros; congruence ]).
  - exfalso.
    destruct (dispatch_raises _ _ _ _ Hrun)
      as [(T & msg & _ & Hllm & _) | [(_ & Hn & Hfb & _) | (_ & Hnot & _)]].
    + destruct (Hans T (llm_calls w)) as [a Ha]. congruence.
    + exact (Hpf Hn Hfb).
    + exact (Hnot Hin).
Qed.

End LoopFacts.

(** ** Termination and errors of the driver loop *)

(** X1.  The driver loop terminates on every record, for every
    collaborator: with three iterations per reflection still possible
    below the ceiling and eight more, the loop ends, either by raising
    or on a record that is complete or awaiting input; the store it ends
    on is one of its execution. *)
Theorem driver_loop_terminates (llm : Collaborator) (w : World) (fuel : nat) :
  (3 * Z.to_nat (3 - reflection_counter (state w)) + 8 <= fuel)%nat ->
  exists o w',
    Api.driver_loop llm fuel w = Some (o, w')
    /\ Api.execution llm w w'
    /\ (o = Returned tt ->
        process_complete (state w') = true
        \/ awaiting_human_input (state w') = true).
Proof.
  intros Hfuel.
  destruct (terminates_within llm fuel w) as (o & w' & Hloop & Hend).
  { pose proof (steps_bound_le (state w)) as Hle.
    unfold reflections_left in Hle. lia. }
  exists o, w'. split; [exact Hloop | split].
  - exact (driver_loop_execution llm fuel w o w' Hloop).
  - intros Ho. specialize (Hend Ho). unfold Api.loop_guard in Hend.
    apply andb_false_iff in Hend.
    destruct Hend as [H | H]; apply negb_false_iff in H; auto.
Qed.

Lemma driver_loop_terminates_witness :
  exists o w',
    Api.driver_loop Samples.insisting_llm 17
      (Samples.resumed_world Samples.accept) = Some (o, w')
    /\ Api.execution Samples.insisting_llm
         (Samples.resumed_world Samples.accept) w'
    /\ (o = Returned tt ->
        process_complete (state w') = true
        \/ awaiting_human_input (state w') = true).
Proof.
  apply (driver_loop_terminates Samples.insisting_llm
           (Samples.resumed_world Samples.accept) 17).
  vm_compute. lia.
Defined.

(** X2.  Whenever the driver loop ends with an exception, the exception
    is one of three: the failure of a collaborator call, the missing
    feedback error raised at [process_feedback] on a record without
    feedback, or the unknown-node error for a step name that is not
    registered; in the last two cases the record the loop stopped on is
    the one that caused the error. *)
Theorem loop_errors_are_of_three_kinds (llm : Collaborator) (fuel : nat) :
  forall w w' e,
    Api.driver_loop llm fuel w = Some (Raised e, w') ->
    (exists T n msg, e = CollaboratorError msg /\ llm T n = inl msg)
    \/ (e = ValueError "No user feedback available to process"
        /\ current_node (state w') = "process_feedback"
        /\ user_feedback (state w') = None)
    \/ (e = HTTPException 400 ("Unknown node: " ++ current_node (state w'))
        /\ ~ In (current_node (state w')) Graph.nodes).
Proof.
  induction fuel as [| fuel IH]; intros w w' e; cbn [Api.driver_loop].
  - destruct (Api.loop_guard (state w)); discriminate.
  - destruct (Api.loop_guard (state w)); [| discriminate].
    destruct (Api.loop_body llm w) as [[[] | e1] w1] eqn:Hrun.
    + apply IH.
    + intros H. inversion H; subst. rewrite loop_body_dispatch in Hrun.
      destruct (dispatch_raises llm _ _ _ _ Hrun)
        as [(T & msg & He & Hllm & _)
           | [(He & Hn & Hfb & Hw) | (He & Hnot & Hw)]].
      * left. eauto.
      * right. left. subst. auto.
      * right. right. subst. auto.
Qed.

Lemma loop_errors_are_of_three_kinds_witness :
  (exists T n msg,
      CollaboratorError "model unavailable" = CollaboratorError msg
      /\ Samples.failing_llm T n = inl msg)
  \/ (CollaboratorError "model unavailable"
      = ValueError "No user feedback available to process"
      /\ current_node (state (mkWorld Samples.fresh_with_image 1))
         = "process_feedback"
      /\ user_feedback (state (mkWorld Samples.fresh_with_image 1)) = None)
  \/ (CollaboratorError "model unavailable"
      = HTTPException 400
          ("Unknown node: "
           ++ current_node (state (mkWorld Samples.fresh_with_image 1)))
      /\ ~ In (current_node (state (mkWorld Samples.fresh_with_image 1)))
              Graph.nodes).
Proof.
  apply (loop_errors_are_of_three_kinds Samples.failing_llm 3
           (mkWorld Samples.fresh_with_image 0)).
  vm_compute. reflexivity.
Defined.

(** X3.  With a collaborator that answers every call, the loop raises
    nothing on a runnable record (registered step, and feedback present
    if the step is [process_feedback]): within the bound it returns, on
    a record that is complete or awaiting input. *)
Theorem no_error_when_collaborator_answers (llm : Collaborator) (w : World)
    (fuel : nat) :
  always_answers llm ->
  runnable (state w) ->
  (3 * Z.to_nat (3 - reflection_counter (state w)) + 8 <= fuel)%nat ->
  exists w',
    Api.driver_loop llm fuel w = Some (Returned tt, w')
    /\ (process_complete (state w') = true
        \/ awaiting_human_input (state w') = true).
Proof.
  intros Hans Hrunnable Hfuel.
  assert (Hle : (steps_bound (state w) <= fuel)%nat).
  { pose proof (steps_bound_le (state w)) as Hle.
    unfold reflections_left in Hle. lia. }
  clear Hfuel. revert w Hrunnable Hle.
  induction fuel as [| fuel IH]; intros w Hrunnable Hle.
  - destruct (terminates_within llm 0 w Hle) as (o & w' & Hloop & Hend).
    cbn in Hloop. destruct (Api.loop_guard (state w)) eqn:Hg;
      [discriminate |].
    exists w. cbn. rewrite Hg. split; [reflexivity |].
    unfold Api.loop_guard in Hg. apply andb_false_iff in Hg.
    destruct Hg as [H | H]; apply negb_false_iff in H; auto.
  - destruct (Api.loop_guard (state w)) eqn:Hg.
    + destruct (runnable_iteration llm w Hans Hrunnable)
        as (w1 & Hrun & Hrunnable1).
      cbn [Api.driver_loop]. rewrite Hg, Hrun.
      apply IH; [exact Hrunnable1 |].
      pose proof (steps_bound_decreases llm w w1 Hg Hrun). lia.
    + exists w. rewrite driver_loop_halted by exact Hg.
      split; [reflexivity |].
      unfold Api.loop_guard in Hg. apply andb_false_iff in Hg.
      destruct Hg as [H | H]; apply negb_false_iff in H; auto.
Qed.

Lemma no_error_when_collaborator_answers_witness :
  exists w',
    Api.driver_loop Samples.insisting_llm 17
      (Samples.resumed_world Samples.accept) = Some (Returned tt, w')
    /\ (process_complete (state w') = true
        \/ awaiting_human_input (state w') = true).
Proof.
  apply (no_error_when_collaborator_answers Samples.insisting_llm
           (Samples.resumed_world Samples.accept) 17).
  - intros T n. eexists. reflexivity.
  - split.
    + vm_compute. repeat (first [left; reflexivity | right]).
    + vm_compute. intros H. discriminate H.
  - vm_compute. lia.
Defined.

(** ** What the loop keeps *)

(** X4.  The inputs of the session are never modified: along every
    execution of the driver loop the concept text and the image list
    are those of the starting record, and [feedback_iteration] is never
    written. *)
Theorem inputs_never_modified (llm : Collaborator) (w w' : World) :
  Api.execution llm w w' ->
  packaging_concept (state w') = packaging_concept (state w)
  /\ concept_images (state w') = concept_images (state w)
  /\ feedback_iteration (state w') = feedback_iteration (state w).
Proof.
  apply (execution_relation llm
           (fun a b =>
              packaging_concept (state b) = packaging_concept (state a)
              /\ concept_images (state b) = concept_images (state a)
              /\ feedback_iteration (state b) = feedback_iteration (state a))).
  - auto.
  - intros a b c (H1 & H2 & H3) (H4 & H5 & H6).
    repeat split; congruence.
  - intros a o b _ Hrun. rewrite loop_body_dispatch in Hrun.
    destruct (dispatch_frame llm _ _ _ _ Hrun) as (H1 & H2 & H3 & _).
    auto.
Qed.

Lemma inputs_never_modified_witness :
  packaging_concept (state Samples.finished)
  = packaging_concept (state (Samples.resumed_world Samples.accept))
  /\ concept_images (state Samples.finished)
     = concept_images (state (Samples.resumed_world Samples.accept))
  /\ feedback_iteration (state Samples.finished)
     = feedback_iteration (state (Samples.resumed_world Samples.accept)).
Proof.
  apply (inputs_never_modified Samples.insisting_llm).
  apply driver_loop_execution with (fuel := 12%nat) (o := Returned tt).
  vm_compute. reflexivity.
Defined.

(** X5.  The message log is append-only: along every execution of the
    driver loop the log of the starting record is a prefix of the
    current log. *)
Theorem message_log_append_only (llm : Collaborator) (w w' : World) :
  Api.execution llm w w' ->
  extends (messages (state w)) (messages (state w')).
Proof.
  apply (execution_relation llm
           (fun a b => extends (messages (state a)) (messages (state b)))).
  - intros a. exists []. rewrite app_nil_r. reflexivity.
  - intros a b c [l1 H1] [l2 H2]. exists (l1 ++ l2)%list.
    rewrite H2, H1, app_assoc. reflexivity.
  - intros a o b _ Hrun. rewrite loop_body_dispatch in Hrun.
    destruct (dispatch_frame llm _ _ _ _ Hrun) as (_ & _ & _ & H & _).
    exact H.
Qed.

Lemma message_log_append_only_witness :
  extends (messages (state (Samples.resumed_world Samples.accept)))
          (messages (state Samples.finished)).
Proof.
  apply (message_log_append_only Samples.insisting_llm).
  apply driver_loop_execution with (fuel := 12%nat) (o := Returned tt).
  vm_compute. reflexivity.
Defined.

(** The number of calls grows by at most the number of iterations. *)
Lemma driver_loop_calls (llm : Collaborator) (fuel : nat) :
  forall w o w',
    Api.driver_loop llm fuel w = Some (o, w') ->
    (llm_calls w <= llm_calls w' <= llm_calls w + fuel)%nat.
Proof.
  induction fuel as [| fuel IH]; intros w o w'; cbn [Api.driver_loop].
  - destruct (Api.loop_guard (state w)); [discriminate |].
    intros H. inversion H; subst. lia.
  - destruct (Api.loop_guard (state w)).
    + destruct (Api.loop_body llm w) as [[[] | e] w1] eqn:Hrun;
        rewrite loop_body_dispatch in Hrun;
        destruct (dispatch_frame llm _ _ _ _ Hrun)
          as (_ & _ & _ & _ & Hcalls & _).
      * intros H. specialize (IH _ _ _ H). lia.
      * intros H. inversion H; subst. lia.
    + intros H. inversion H; subst. lia.
Qed.

(** X6.  The loop calls the collaborator at most once per iteration:
    when the loop run with [fuel] ends, the number of calls has grown by
    at most [fuel], and it never shrinks; the two steps of the feedback
    gate call it not at all. *)
Theorem one_call_per_iteration (llm : Collaborator) (fuel : nat)
    (w w' : World) (o : Outcome unit) :
  Api.driver_loop llm fuel w = Some (o, w') ->
  (llm_calls w <= llm_calls w' <= llm_calls w + fuel)%nat
  /\ llm_calls (snd (Tools.human_feedback w)) = llm_calls w
  /\ llm_calls (snd (Tools.process_feedback w)) = llm_calls w.
Proof.
  intros Hloop. split; [exact (driver_loop_calls llm fuel w o w' Hloop) |].
  split.
  - destruct (Tools.human_feedback w) as [o1 w1] eqn:Hrun.
    run_handler; reflexivity.
  - destruct (Tools.process_feedback w) as [o1 w1] eqn:Hrun.
    run_handler; reflexivity.
Qed.

Lemma one_call_per_iteration_witness :
  (llm_calls (Samples.resumed_world Samples.accept)
   <= llm_calls Samples.finished
   <= llm_calls (Samples.resumed_world Samples.accept) + 12)%nat
  /\ llm_calls (snd (Tools.human_feedback
                       (Samples.resumed_world Samples.accept)))
     = llm_calls (Samples.resumed_world Samples.accept)
  /\ llm_calls (snd (Tools.process_feedback
                       (Samples.resumed_world Samples.accept)))
     = llm_calls (Samples.resumed_world Samples.accept).
Proof.
  apply (one_call_per_iteration Samples.insisting_llm 12
           (Samples.resumed_world Samples.accept) Samples.finished
           (Returned tt)).
  vm_compute. reflexivity.
Defined.

(** X7.  No step moves a control field backwards: whatever step the
    loop dispatches to and however it ends, [process_complete] and
    [awaiting_human_input] are never taken down, and
    [reflection_counter] is unchanged except in the reflection step,
    which adds exactly one. *)
Theorem control_fields_move_one_way (llm : Collaborator) (node : string)
    (w w' : World) (o : Outcome unit) :
  Api.dispatch llm node w = (o, w') ->
  (process_complete (state w) = true -> process_complete (state w') = true)
  /\ (awaiting_human_input (state w) = true ->
      awaiting_human_input (state w') = true)
  /\ reflection_counter (state w')
     = (if String.eqb node "reflection"
        then reflection_counter (state w) + 1
        else reflection_counter (state w)).
Proof.
  intros Hrun.
  destruct (dispatch_frame llm _ _ _ _ Hrun)
    as (_ & _ & _ & _ & _ & _ & Hpc & Haw).
  split; [exact Hpc | split; [exact Haw |]].
  clear Hpc Haw.
  split_dispatch node; run_handler; first [reflexivity | congruence].
Qed.

Lemma control_fields_move_one_way_witness :
  (process_complete (state Samples.finished) = true ->
   process_complete
     (state (snd (Api.dispatch Samples.failing_llm "reflection"
                    Samples.finished))) = true)
  /\ (awaiting_human_input (state Samples.finished) = true ->
      awaiting_human_input
        (state (snd (Api.dispatch Samples.failing_llm "reflection"
                       Samples.finished))) = true)
  /\ reflection_counter
       (state (snd (Api.dispatch Samples.failing_llm "reflection"
                      Samples.finished)))
     = (if String.eqb "reflection" "reflection"
        then reflection_counter (state Samples.finished) + 1
        else reflection_counter (state Samples.finished)).
Proof.
  apply (control_fields_move_one_way Samples.failing_llm "reflection"
           Samples.finished _
           (fst (Api.dispatch Samples.failing_llm "reflection"
                   Samples.finished))).
  destruct (Api.dispatch Samples.failing_llm "reflection" Samples.finished).
  reflexivity.
Defined.

(** X8.  A record completed by the loop carries its final evaluation:
    along every execution that starts from a record that is not
    complete, a complete record sits at [final_score], holds a final
    evaluation, and its [evaluation_score] and [final_recommendation]
    are the score and the executive summary of that evaluation. *)
Theorem completion_carries_final_evaluation (llm : Collaborator)
    (w w' : World) :
  process_complete (state w) = false ->
  Api.execution llm w w' ->
  process_complete (state w') = true ->
  current_node (state w') = "final_score"
  /\ mirrors_final_evaluation (state w').
Proof.
  intros Hstart Hexec.
  apply (execution_invariant llm
           (fun s => process_complete s = true ->
                     current_node s = "final_score"
                     /\ mirrors_final_evaluation s)) with (w := w);
    [| exact Hexec | intros H; congruence].
  clear. intros w o w' _ Hg Hrun.
  destruct (loop_guard_true _ Hg) as [Hpc _].
  rewrite loop_body_dispatch in Hrun. unfold mirrors_final_evaluation.
  split_dispatch (current_node (state w)); run_handler; cbn;
    intros Hdone; try congruence.
  split; [assumption |]. eexists. repeat split.
Qed.

Lemma completion_carries_final_evaluation_witness :
  current_node (state Samples.finished) = "final_score"
  /\ mirrors_final_evaluation (state Samples.finished).
Proof.
  apply (completion_carries_final_evaluation Samples.insisting_llm
           (Samples.resumed_world Samples.accept) Samples.finished).
  - vm_compute. reflexivity.
  - apply driver_loop_execution with (fuel := 12%nat) (o := Returned tt).
    vm_compute. reflexivity.
  - vm_compute. reflexivity.
Defined.

(** ** The endpoint and the feedback cycle *)

(** X9.  The [/evaluate] endpoint never gets past the feedback gate:
    for every request and every collaborator it answers within three
    iterations, after at most two collaborator calls, either with an
    error of status 500 or with a snapshot that is not complete, sits at
    [human_feedback] and awaits input. *)
Theorem evaluate_stops_at_feedback_gate (llm : Collaborator)
    (request : Api.EvaluationRequest.t) (calls : nat) :
  exists answer calls',
    Api.evaluate_packaging llm 3 request calls = Some (answer, calls')
    /\ (calls <= calls' <= calls + 2)%nat
    /\ ((exists detail, answer = Raised (HTTPException 500 detail))
        \/ (exists response,
               answer = Returned response
               /\ Api.EvaluationResponse.current_node response
                  = "human_feedback"
               /\ Api.EvaluationResponse.process_complete response = false
               /\ awaiting_human_input
                    (Api.EvaluationResponse.state response) = true)).
Proof.
  unfold Api.evaluate_packaging.
  set (w0 := mkWorld (PES.new (Api.EvaluationRequest.packaging_concept request)
                              (Api.EvaluationRequest.concept_images request))
                     calls).
  assert (Hcalls : forall o w,
             Api.driver_loop llm 3 w0 = Some (o, w) ->
             (calls <= llm_calls w <= calls + 2)%nat).
  { intros o w Hloop.
    pose proof (driver_loop_calls llm 3 w0 o w Hloop) as H3.
    cbn [llm_calls w0] in H3.
    destruct (Nat.eq_dec (llm_calls w) (calls + 3)) as [Heq | Hne]; [| lia].
    exfalso. revert Hloop Heq.
    rewrite (driver_loop_unfold llm 2 w0 eq_refl).
    change (current_node (state w0)) with "image_analyzer".
    change (Api.dispatch llm "image_analyzer" w0)
      with (Tools.image_analysis llm w0).
    destruct (Tools.image_analysis llm w0) as [[[] | e] w1] eqn:H1.
    2:{ intros H Heq. inversion H; subst.
        pose proof (proj1 (proj2 (proj2 (proj2 (proj2
              (dispatch_frame llm "image_analyzer" w0 w (Raised e) H1)))))).
        cbn [llm_calls w0] in *. lia. }
    destruct (image_analysis_returns llm w0 w1 H1) as (Hn1 & Hc1 & Ha1 & Hf1).
    pose proof (proj1 (proj2 (proj2 (proj2 (proj2
          (dispatch_frame llm "image_analyzer" w0 w1 (Returned tt) H1))))))
      as Hk1.
    assert (Hg1 : Api.loop_guard (state w1) = true).
    { unfold Api.loop_guard. rewrite Hc1, Ha1. reflexivity. }
    rewrite (driver_loop_unfold llm 1 w1 Hg1), Hn1.
    destruct (Api.dispatch llm "concept_breaker" w1) as [[[] | e] w2] eqn:H2.
    2:{ intros H Heq. inversion H; subst.
        pose proof (proj1 (proj2 (proj2 (proj2 (proj2
              (dispatch_frame llm "concept_breaker" w1 w (Raised e) H2)))))).
        cbn [llm_calls w0] in *. lia. }
    pose proof (proj1 (proj2 (proj2 (proj2 (proj2
          (dispatch_frame llm "concept_breaker" w1 w2 (Returned tt) H2))))))
      as Hk2.
    intros Hloop Heq.
    pose proof (driver_loop_calls llm 1 w2 o w Hloop) as Hk3.
    assert (Hlast : llm_calls w = llm_calls w2); [| cbn [llm_calls w0] in *; lia].
    revert Hloop. cbn [Api.driver_loop].
    destruct (Api.loop_guard (state w2)); [| intros H; inversion H; reflexivity].
    unfold Api.loop_body. run_monad.
    destruct (concept_breaker_returns llm w1 w2 H2) as (Hn2 & _).
    rewrite Hn2.
    change (Api.dispatch llm "human_feedback" w2) with (Tools.human_feedback w2).
    destruct (Tools.human_feedback w2) as [o3 w3] eqn:H3'.
    assert (llm_calls w3 = llm_calls w2) by (run_handler; reflexivity).
    destruct o3 as [[] | e3].
    - destruct (Api.loop_guard (state w3)); intros H'; inversion H'; subst; auto.
    - intros H'; inversion H'; subst; auto. }
  destruct (new_session_loop llm
              (Api.EvaluationRequest.packaging_concept request)
              (Api.EvaluationRequest.concept_images request) calls)
    as [(e & w & Hloop) | (w & Hloop & Hn & Hc & Ha)];
    fold w0 in Hloop; rewrite Hloop.
  - do 2 eexists. split; [reflexivity |].
    split; [exact (Hcalls _ _ Hloop) |]. left. eauto.
  - do 2 eexists. split; [reflexivity |].
    split; [exact (Hcalls _ _ Hloop) |]. right.
    eexists. split; [reflexivity |]. cbn. auto.
Qed.

(** X10.  The reject cycle.  When the loop resumes at the feedback step
    on a record whose feedback rejects the components, and the
    collaborator then answers the decomposition, the loop makes exactly
    four iterations and parks again: the record sits at
    [human_feedback] awaiting input, the feedback is consumed, the
    components are the newly derived ones, four messages were appended
    and the collaborator was called once. *)
Theorem reject_cycle_parks_again (llm : Collaborator) (w : World)
    (fb : UserFeedback.t) (cl : ComponentList.t) (extra : nat) :
  Api.loop_guard (state w) = true ->
  current_node (state w) = "human_feedback" ->
  user_feedback (state w) = Some fb ->
  UserFeedback.is_correct fb = false ->
  llm ComponentListSchema (llm_calls w) = inr cl ->
  exists w',
    Api.driver_loop llm (4 + extra) w = Some (Returned tt, w')
    /\ current_node (state w') = "human_feedback"
    /\ awaiting_human_input (state w') = true
    /\ user_feedback (state w') = None
    /\ components (state w') = ComponentList.components cl
    /\ llm_calls w' = S (llm_calls w)
    /\ length (messages (state w')) = (length (messages (state w)) + 4)%nat.
Proof.
  intros Hg Hnode Hfb Hno Hllm.
  destruct (loop_guard_true _ Hg) as [Hpc Haw].
  change (4 + extra)%nat with (S (S (S (S extra)))).
  (* the feedback step sees the feedback *)
  rewrite (driver_loop_unfold llm _ w Hg), Hnode.
  change (Api.dispatch llm "human_feedback" w) with (Tools.human_feedback w).
  rewrite (human_feedback_present w fb Hfb).
  (* the feedback is processed and rejected *)
  set (w1 := mkWorld (set_current_node "process_feedback" (state w))
                     (llm_calls w)).
  assert (Hg1 : Api.loop_guard (state w1) = true).
  { unfold Api.loop_guard. cbn. rewrite Hpc, Haw. reflexivity. }
  rewrite (driver_loop_unfold llm _ w1 Hg1).
  change (current_node (state w1)) with "process_feedback".
  change (Api.dispatch llm "process_feedback" w1)
    with (Tools.process_feedback w1).
  unfold Tools.process_feedback at 1. run_monad.
  cbn [state w1 user_feedback set_current_node]. rewrite Hfb, Hno.
  cbn [negb]. store_simpl.
  (* the concept is broken down again *)
  match goal with
  | |- context [Api.driver_loop llm _ ?x] => set (w2 := x)
  end.
  assert (Hg2 : Api.loop_guard (state w2) = true).
  { unfold Api.loop_guard. cbn. rewrite Hpc, Haw. reflexivity. }
  rewrite (driver_loop_unfold llm _ w2 Hg2).
  change (current_node (state w2)) with "concept_breaker".
  change (Api.dispatch llm "concept_breaker" w2)
    with (Tools.concept_breaker llm w2).
  unfold Tools.concept_breaker at 1. run_monad.
  change (llm_calls w2) with (llm_calls w). rewrite Hllm. store_simpl.
  (* the feedback step parks the record *)
  match goal with
  | |- context [Api.driver_loop llm _ ?x] => set (w3 := x)
  end.
  assert (Hg3 : Api.loop_guard (state w3) = true).
  { unfold Api.loop_guard. cbn. rewrite Hpc, Haw. reflexivity. }
  rewrite (driver_loop_unfold llm _ w3 Hg3).
  change (current_node (state w3)) with "human_feedback".
  change (Api.dispatch llm "human_feedback" w3) with (Tools.human_feedback w3).
  rewrite (human_feedback_absent w3 eq_refl).
  eexists. split.
  - apply driver_loop_halted. unfold Api.loop_guard. cbn.
    apply andb_false_r.
  - cbn. repeat split. rewrite !length_app. cbn. lia.
Qed.

Lemma reject_cycle_parks_again_witness :
  exists w',
    Api.driver_loop Samples.insisting_llm (4 + 0)
      (Samples.resumed_world Samples.reject) = Some (Returned tt, w')
    /\ current_node (state w') = "human_feedback"
    /\ awaiting_human_input (state w') = true
    /\ user_feedback (state w') = None
    /\ components (state w')
       = ComponentList.components (ComponentList.mk [Samples.sample_component])
    /\ llm_calls w' = S (llm_calls (Samples.resumed_world Samples.reject))
    /\ length (messages (state w'))
       = (length (messages (state (Samples.resumed_world Samples.reject)))
          + 4)%nat.
Proof.
  apply (reject_cycle_parks_again Samples.insisting_llm
           (Samples.resumed_world Samples.reject) Samples.reject
           (ComponentList.mk [Samples.sample_component]) 0).
  - vm_compute. reflexivity.
  - vm_compute. reflexivity.
  - vm_compute. reflexivity.
  - reflexivity.
  - reflexivity.
Defined.

(** * Splitting documents into chunks *)


Lemma size_fold_shift (words : list string) (acc : Z) :
  fold_left (fun a word => a + (DP.str_len word + 1)) words acc
  = acc + DP.words_size words.
Proof.
  unfold DP.words_size. revert acc.
  induction words as [| x words IH]; intros acc; cbn [fold_left].
  - lia.
  - rewrite IH, (IH (0 + _)). lia.
Qed.

Lemma words_size_cons (x : string) (words : list string) :
  DP.words_size (x :: words) = DP.str_len x + 1 + DP.words_size words.
Proof.
  unfold DP.words_size at 1. cbn [fold_left]. rewrite size_fold_shift. lia.
Qed.

Lemma words_size_app (l1 l2 : list string) :
  DP.words_size (l1 ++ l2) = DP.words_size l1 + DP.words_size l2.
Proof.
  induction l1 as [| x l1 IH]; [reflexivity |].
  cbn [app]. rewrite !words_size_cons, IH. lia.
Qed.



(** A slice from the end is a suffix. *)
Lemma last_slice_suffix {A : Type} (k : Z) (l : list A) :
  exists dropped, l = (dropped ++ DP.last_slice k l)%list.
Proof.
  unfold DP.last_slice.
  destruct (k =? 0); [exists []; reflexivity |].
  destruct (0 <? k); eexists; symmetry; apply firstn_skipn.
Qed.

Section ChunkerFacts.

Variable self : DP.t.

Lemma size_kept_feed (st : DP.Chunker) (word : string) :
  size_kept st -> size_kept (DP.feed self st word).
Proof.
  unfold size_kept, DP.feed. intros H.
  destruct (DP.chunk_size self <=? _);
    cbn [DP.current_size DP.current_chunk]; [reflexivity |].
  rewrite words_size_app, H, words_size_cons.
  change (DP.words_size []) with 0. lia.
Qed.

Lemma size_kept_fold (words : list string) :
  forall st, size_kept st -> size_kept (fold_left (DP.feed self) words st).
Proof.
  induction words as [| x words IH]; intros st H; cbn; auto.
  apply IH, size_kept_feed, H.
Qed.

(** Chunks already collected stay in front, whatever is fed next. *)
Lemma fold_keeps_chunks (words : list string) :
  forall st,
  exists emitted,
    DP.text_chunks (fold_left (DP.feed self) words st)
    = (DP.text_chunks st ++ emitted)%list
    /\ (length emitted <= length words)%nat.
Proof.
  induction words as [| x words IH]; intros st; cbn [fold_left].
  - exists []. rewrite app_nil_r. auto.
  - destruct (IH (DP.feed self st x)) as (emitted & Heq & Hlen).
    rewrite Heq. unfold DP.feed.
    destruct (DP.chunk_size self <=? _); cbn [DP.text_chunks].
    + eexists. rewrite <- app_assoc. split; [reflexivity |].
      cbn [length app]. lia.
    + exists emitted. split; [reflexivity | cbn; lia].
Qed.

(** The loop does not look at the chunks collected so far. *)
Lemma feed_prepend (before chunks current : list string) (size : Z)
    (word : string) :
  DP.feed self (DP.mkChunker (before ++ chunks) current size) word
  = DP.mkChunker
      (before
       ++ DP.text_chunks (DP.feed self (DP.mkChunker chunks current size) word))
      (DP.current_chunk (DP.feed self (DP.mkChunker chunks current size) word))
      (DP.current_size (DP.feed self (DP.mkChunker chunks current size) word)).
Proof.
  unfold DP.feed. cbn [DP.text_chunks DP.current_chunk DP.current_size].
  destruct (DP.chunk_size self <=? size + (DP.str_len word + 1));
    cbn [DP.text_chunks DP.current_chunk DP.current_size];
    [rewrite app_assoc |]; reflexivity.
Qed.

Lemma fold_prepend (words : list string) :
  forall before chunks current size,
    fold_left (DP.feed self) words
      (DP.mkChunker (before ++ chunks) current size)
    = DP.mkChunker
        (before
         ++ DP.text_chunks
              (fold_left (DP.feed self) words
                 (DP.mkChunker chunks current size)))
        (DP.current_chunk
           (fold_left (DP.feed self) words (DP.mkChunker chunks current size)))
        (DP.current_size
           (fold_left (DP.feed self) words (DP.mkChunker chunks current size))).
Proof.
  induction words as [| x words IH]; intros before chunks current size.
  - reflexivity.
  - cbn [fold_left]. rewrite feed_prepend.
    destruct (DP.feed self (DP.mkChunker chunks current size) x)
      as [chunks1 current1 size1].
    cbn [DP.text_chunks DP.current_chunk DP.current_size]. apply IH.
Qed.

Lemma chunk_words_prepend (chunks words : list string) :
  DP.chunk_words self chunks words
  = (chunks ++ DP.chunk_words self [] words)%list.
Proof.
  unfold DP.chunk_words.
  rewrite <- (app_nil_r chunks) at 1. rewrite fold_prepend.
  unfold DP.flush. cbn [DP.current_chunk DP.text_chunks].
  destruct (Py.truthy_list _); [rewrite app_assoc |]; reflexivity.
Qed.

Lemma run_of_grows (processed seg : list string) (word : string) :
  run_of processed seg -> run_of (processed ++ [word]) seg.
Proof.
  intros (b & a & ->). exists b, (a ++ [word])%list.
  rewrite <- !app_assoc. reflexivity.
Qed.

Lemma chunking_invariant_feed (processed : list string) (st : DP.Chunker)
    (word : string) :
  chunking_invariant self processed st ->
  chunking_invariant self (processed ++ [word]) (DP.feed self st word).
Proof.
  intros ((before & Hheld) & Hchunks & Hcover & Hsize).
  assert (Hsize' := size_kept_feed st word Hsize).
  unfold chunking_invariant, DP.feed in *.
  destruct (Z.leb_spec (DP.chunk_size self)
              (DP.current_size st + (DP.str_len word + 1))) as [Hfull | Hroom];
    cbn [DP.text_chunks DP.current_chunk DP.current_size] in *.
  - (* the chunk is emitted *)
    split; [| split; [| split; [| exact Hsize']]].
    + destruct (last_slice_suffix (DP.chunk_overlap self)
                  (DP.current_chunk st ++ [word])) as [dropped Hdrop].
      exists (before ++ dropped)%list.
      rewrite <- app_assoc, <- Hdrop, Hheld, app_assoc. reflexivity.
    + intros chunk Hin. apply in_app_or in Hin. destruct Hin as [Hin | Hin].
      * destruct (Hchunks chunk Hin) as (seg & Hne & Hj & Hrun & Hbig).
        exists seg. repeat split; auto. apply run_of_grows, Hrun.
      * destruct Hin as [<- | []].
        exists (DP.current_chunk st ++ [word])%list. repeat split.
        -- destruct (DP.current_chunk st); discriminate.
        -- exists before, []. rewrite app_nil_r, Hheld, app_assoc.
           reflexivity.
        -- rewrite words_size_app, words_size_cons, <- Hsize.
           change (DP.words_size []) with 0. lia.
    + intros w Hin. right. apply in_app_or in Hin.
      destruct Hin as [Hin | [<- | []]].
      * destruct (Hcover w Hin) as [Hheld_w | (seg & Hw & Hseg)].
        -- exists (DP.current_chunk st ++ [word])%list. split.
           ++ apply in_or_app. auto.
           ++ apply in_or_app. right. left. reflexivity.
        -- exists seg. split; [exact Hw |]. apply in_or_app. auto.
      * exists (DP.current_chunk st ++ [word])%list. split.
        -- apply in_or_app. right. left. reflexivity.
        -- apply in_or_app. right. left. reflexivity.
  - (* the word is only added *)
    split; [| split; [| split; [| exact Hsize']]].
    + exists before. rewrite Hheld, app_assoc. reflexivity.
    + intros chunk Hin.
      destruct (Hchunks chunk Hin) as (seg & Hne & Hj & Hrun & Hbig).
      exists seg. repeat split; auto. apply run_of_grows, Hrun.
    + intros w Hin. apply in_app_or in Hin.
      destruct Hin as [Hin | [<- | []]].
      * destruct (Hcover w Hin) as [Hheld_w | Hseg]; [left | right; exact Hseg].
        apply in_or_app. auto.
      * left. apply in_or_app. right. left. reflexivity.
Qed.

Lemma chunking_invariant_fold (words : list string) :
  forall processed st,
    chunking_invariant self processed st ->
    chunking_invariant self (processed ++ words)
      (fold_left (DP.feed self) words st).
Proof.
  induction words as [| x words IH]; intros processed st Hinv.
  - rewrite app_nil_r. exact Hinv.
  - cbn [fold_left].
    replace (processed ++ x :: words)%list
      with ((processed ++ [x]) ++ words)%list
      by (rewrite <- app_assoc; reflexivity).
    apply IH, chunking_invariant_feed, Hinv.
Qed.

(** The invariant on the state the loop of a text ends in. *)
Lemma chunking_invariant_text (words : list string) :
  chunking_invariant self words
    (fold_left (DP.feed self) words (DP.mkChunker [] [] 0)).
Proof.
  apply (chunking_invariant_fold words [] (DP.mkChunker [] [] 0)).
  unfold chunking_invariant, size_kept. cbn.
  repeat split; try contradiction. exists []. reflexivity.
Qed.

(** Membership in the chunks of a text: collected in the loop, or the
    words held at the end. *)
Lemma in_flush (st : DP.Chunker) (chunk : string) :
  In chunk (DP.flush st) <->
  In chunk (DP.text_chunks st)
  \/ (DP.current_chunk st <> [] /\ chunk = Py.join " " (DP.current_chunk st)).
Proof.
  unfold DP.flush. destruct (DP.current_chunk st) as [| x l]; cbn [Py.truthy_list].
  - split; [auto | intros [H | [H _]]; [exact H | congruence]].
  - rewrite in_app_iff. cbn [In]. split.
    + intros [H | [H | []]]; [auto | right; split; [discriminate | auto]].
    + intros [H | [_ H]]; auto.
Qed.


(** With an overlap of zero the loop never lets go of a word. *)
Lemma fold_zero_overlap (Hzero : DP.chunk_overlap self = 0)
    (words : list string) :
  forall processed st,
    DP.current_chunk st = processed ->
    (forall chunk,
        In chunk (DP.text_chunks st) ->
        exists n, chunk = Py.join " " (firstn n (processed ++ words))) ->
    forall chunk,
      In chunk (DP.flush (fold_left (DP.feed self) words st)) ->
      exists n, chunk = Py.join " " (firstn n (processed ++ words)).
Proof.
  induction words as [| x words IH]; intros processed st Hheld Hchunks chunk.
  - cbn [fold_left]. rewrite in_flush. intros [Hin | [_ ->]]; [auto |].
    exists (length processed). rewrite Hheld, app_nil_r, firstn_all.
    reflexivity.
  - cbn [fold_left].
    replace (processed ++ x :: words)%list
      with ((processed ++ [x]) ++ words)%list in *
      by (rewrite <- app_assoc; reflexivity).
    apply IH.
    + unfold DP.feed. rewrite Hzero, Hheld.
      destruct (DP.chunk_size self <=? _); reflexivity.
    + intros c. unfold DP.feed.
      destruct (DP.chunk_size self <=? _); cbn [DP.text_chunks]; [| auto].
      intros Hin. apply in_app_or in Hin. destruct Hin as [Hin | [<- | []]];
        [auto |].
      exists (length (processed ++ [x])).
      rewrite firstn_app, firstn_all, Nat.sub_diag, Hheld. cbn [firstn].
      rewrite app_nil_r. reflexivity.
Qed.


(** Every word fed ends up among the words of a chunk. *)
Lemma every_word_covered (words : list string) (word : string) :
  In word words ->
  exists seg,
    In word seg
    /\ In (Py.join " " seg) (DP._extract_text_from_txt self words).
Proof.
  intros Hin. unfold DP._extract_text_from_txt, DP.chunk_words.
  destruct (chunking_invariant_text words) as (_ & _ & Hcover & _).
  destruct (Hcover word Hin) as [Hheld | (seg & Hw & Hseg)].
  - eexists. split; [exact Hheld |]. apply in_flush. right.
    split; [| reflexivity]. intros Hnil. rewrite Hnil in Hheld. exact Hheld.
  - exists seg. split; [exact Hw |]. apply in_flush. auto.
Qed.

Lemma overlapping_snoc (k : Z) (segs : list (list string))
    (chunk : list string) :
  overlapping k segs ->
  (forall front last,
      segs = (front ++ [last])%list ->
      exists more, chunk = (DP.last_slice k last ++ more)%list) ->
  overlapping k (segs ++ [chunk]).
Proof.
  intros Hov. induction Hov as [| a | a b rest Hlink _ IH]; intros Hlast.
  - constructor.
  - cbn. constructor; [| constructor]. exact (Hlast [] a eq_refl).
  - cbn. constructor; [exact Hlink |]. apply IH.
    intros front last Heq. apply (Hlast (a :: front) last).
    cbn. rewrite Heq. reflexivity.
Qed.

Lemma overlap_invariant_feed (processed : list string) (st : DP.Chunker)
    (word : string) :
  overlap_invariant self processed st ->
  overlap_invariant self (processed ++ [word]) (DP.feed self st word).
Proof.
  intros (segs & Htext & Hov & Hheld & Hruns & (before & Hend)).
  unfold overlap_invariant, DP.feed.
  destruct (DP.chunk_size self <=? _);
    cbn [DP.text_chunks DP.current_chunk].
  - exists (segs ++ [DP.current_chunk st ++ [word]])%list.
    split; [| split; [| split; [| split]]].
    + rewrite map_app, Htext. reflexivity.
    + apply overlapping_snoc; [exact Hov |].
      intros front last Heq. destruct (Hheld front last Heq) as [more ->].
      exists (more ++ [word])%list. rewrite app_assoc. reflexivity.
    + intros front last Heq. apply app_inj_tail in Heq.
      destruct Heq as [_ <-]. exists []. rewrite app_nil_r. reflexivity.
    + intros seg Hin. apply in_app_or in Hin.
      destruct Hin as [Hin | [<- | []]].
      * destruct (Hruns seg Hin) as [Hne Hrun].
        split; [exact Hne | apply run_of_grows, Hrun].
      * split; [destruct (DP.current_chunk st); discriminate |].
        exists before, []. rewrite app_nil_r, Hend, app_assoc. reflexivity.
    + destruct (last_slice_suffix (DP.chunk_overlap self)
                  (DP.current_chunk st ++ [word])) as [dropped Hdrop].
      exists (before ++ dropped)%list.
      rewrite <- app_assoc, <- Hdrop, Hend, app_assoc. reflexivity.
  - exists segs. split; [exact Htext | split; [exact Hov |]].
    split; [| split].
    + intros front last Heq. destruct (Hheld front last Heq) as [more ->].
      exists (more ++ [word])%list. rewrite app_assoc. reflexivity.
    + intros seg Hin. destruct (Hruns seg Hin) as [Hne Hrun].
      split; [exact Hne | apply run_of_grows, Hrun].
    + exists before. rewrite Hend, app_assoc. reflexivity.
Qed.

Lemma overlap_invariant_fold (words : list string) :
  forall processed st,
    overlap_invariant self processed st ->
    overlap_invariant self (processed ++ words)
      (fold_left (DP.feed self) words st).
Proof.
  induction words as [| x words IH]; intros processed st H.
  - rewrite app_nil_r. exact H.
  - cbn [fold_left].
    replace (processed ++ x :: words)%list
      with ((processed ++ [x]) ++ words)%list
      by (rewrite <- app_assoc; reflexivity).
    apply IH, overlap_invariant_feed, H.
Qed.

End ChunkerFacts.

(** X12.  No word of a text is lost: every word is among the words of
    some chunk. *)
Theorem every_word_is_in_a_chunk (self : DP.t) (words : list string)
    (word : string) :
  In word words ->
  exists seg,
    In word seg
    /\ In (Py.join " " seg) (DP._extract_text_from_txt self words).
Proof.
  exact (every_word_covered self words word).
Qed.

Lemma every_word_is_in_a_chunk_witness :
  exists seg,
    In "board" seg
    /\ In (Py.join " " seg)
          (DP._extract_text_from_txt ChunkSamples.processor ChunkSamples.words).
Proof.
  apply (every_word_is_in_a_chunk ChunkSamples.processor ChunkSamples.words).
  vm_compute. auto.
Defined.

(** X13.  A text gives at most one chunk per word and one more, and it
    gives no chunk exactly when it has no word. *)
Theorem chunk_count (self : DP.t) (words : list string) :
  (length (DP._extract_text_from_txt self words) <= length words + 1)%nat
  /\ (DP._extract_text_from_txt self words = [] <-> words = []).
Proof.
  split.
  - unfold DP._extract_text_from_txt, DP.chunk_words, DP.flush.
    destruct (fold_keeps_chunks self words (DP.mkChunker [] [] 0))
      as (emitted & Heq & Hlen).
    rewrite Heq. cbn [DP.text_chunks app].
    destruct (Py.truthy_list _); [rewrite length_app; cbn |]; lia.
  - split.
    + intros Hnone. destruct words as [| x words]; [reflexivity |].
      destruct (every_word_covered self (x :: words) x (or_introl eq_refl))
        as (seg & _ & Hin).
      rewrite Hnone in Hin. contradiction.
    + intros ->. reflexivity.
Qed.





(** X16.  With an overlap of zero nothing is dropped after a chunk is
    emitted ([current_chunk[-0:]] is the whole list): every chunk is the
    join of a prefix of the text, so each chunk repeats all the words
    before it. *)
Theorem zero_overlap_keeps_everything (self : DP.t) (words : list string)
    (chunk : string) :
  DP.chunk_overlap self = 0 ->
  In chunk (DP._extract_text_from_txt self words) ->
  exists n, chunk = Py.join " " (firstn n words).
Proof.
  intros Hzero. unfold DP._extract_text_from_txt, DP.chunk_words.
  apply (fold_zero_overlap self Hzero words [] (DP.mkChunker [] [] 0)).
  - reflexivity.
  - intros c [].
Qed.

Lemma zero_overlap_keeps_everything_witness :
  exists n,
    "thin board folds flat" = Py.join " " (firstn n ChunkSamples.words).
Proof.
  apply (zero_overlap_keeps_everything ChunkSamples.no_overlap
           ChunkSamples.words).
  - reflexivity.
  - vm_compute. auto.
Defined.

(** X17.  Chunks of a PDF never span pages: the chunks of the document
    are the chunks of its pages, each page split on its own, in page
    order. *)
Theorem pdf_chunks_are_per_page (self : DP.t) (pages : list (list string)) :
  DP._extract_text_from_pdf self pages
  = concat (map (DP._extract_text_from_txt self) pages).
Proof.
  unfold DP._extract_text_from_pdf, DP._extract_text_from_txt.
  assert (Hgen : forall chunks,
             fold_left (DP.chunk_words self) pages chunks
             = (chunks ++ concat (map (DP.chunk_words self []) pages))%list).
  { induction pages as [| page pages IH]; intros chunks; cbn.
    - rewrite app_nil_r. reflexivity.
    - rewrite IH, (chunk_words_prepend self chunks page), app_assoc.
      reflexivity. }
  exact (Hgen []).
Qed.

(** * Searching the knowledge base *)

Section SearchFacts.

(** When the filter loop ends without error it has kept exactly the
    results that go through, in order. *)
Lemma filter_results_kept (agent_type : option string)
    (tags : option (list string)) (results : list KB.KnowledgeEntry) :
  forall kept,
    KB.filter_results agent_type tags results = inr kept ->
    kept = filter (matches agent_type tags) results.
Proof.
  unfold matches.
  induction results as [| r results IH]; intros kept; cbn.
  - intros H. inversion H. reflexivity.
  - destruct (KB.passes agent_type tags r) as [e | keep]; [discriminate |].
    destruct (KB.filter_results agent_type tags results) as [e | kept'];
      [discriminate |].
    intros H. inversion H; subst. rewrite (IH kept' eq_refl).
    destruct keep; reflexivity.
Qed.

(** An error on any result ends the loop with an error. *)
Lemma filter_results_error (agent_type : option string)
    (tags : option (list string)) (results : list KB.KnowledgeEntry)
    (r : KB.KnowledgeEntry) (e : KB.Error) :
  In r results ->
  KB.passes agent_type tags r = inl e ->
  exists e', KB.filter_results agent_type tags results = inl e'.
Proof.
  induction results as [| r0 results IH]; [contradiction |].
  intros [-> | Hin] Herr; cbn.
  - rewrite Herr. eauto.
  - destruct (KB.passes agent_type tags r0) as [e0 | keep]; [eauto |].
    destruct (IH Hin Herr) as [e' ->]. eauto.
Qed.

(** All the tags are found only if each of them is. *)
Lemma all_in_true (container : KB.Json) (tags : list string) :
  KB.all_in container tags = inr true ->
  forall tag, In tag tags -> KB.contains container tag = inr true.
Proof.
  induction tags as [| t tags IH]; cbn; [contradiction |].
  destruct (KB.contains container t) as [e | []] eqn:Hc; try discriminate.
  intros Hall tag [<- | Hin]; auto.
Qed.

(** What going through the filter says of a result. *)
Lemma matches_spec (agent_type : option string) (tags : option (list string))
    (r : KB.KnowledgeEntry) :
  matches agent_type tags r = true ->
  (forall a,
      agent_type = Some a -> a <> EmptyString ->
      KB.lookup "agent_type" (KB.metadata r) = Some (KB.JStr a))
  /\ (forall l,
         tags = Some l -> l <> [] ->
         KB.lookup "tags" (KB.metadata r) <> None
         /\ forall tag,
              In tag l ->
              KB.contains (KB.get (KB.metadata r) "tags" (KB.JList [])) tag
              = inr true).
Proof.
  unfold matches, KB.passes. intros Hm. split.
  - intros a -> Hne. cbn [KB.given_text] in Hm.
    destruct (String.eqb_spec a EmptyString) as [| _]; [contradiction |].
    cbn [negb andb] in Hm. unfold KB.get in Hm.
    destruct (KB.lookup "agent_type" (KB.metadata r)) as [[] |];
      cbn [KB.differs] in Hm; try discriminate.
    destruct (String.eqb_spec s a); [subst; reflexivity | discriminate].
  - intros l -> Hne.
    destruct (KB.given_text agent_type
              && KB.differs (KB.get (KB.metadata r) "agent_type" KB.JNull) _);
      [discriminate |].
    cbn [KB.given_tags] in Hm.
    destruct l as [| t l]; [congruence |]. cbn [Py.truthy_list] in Hm.
    destruct (KB.all_in _ (t :: l)) as [e | []] eqn:Hall; try discriminate.
    split.
    + intros Hnone. unfold KB.get in Hall. rewrite Hnone in Hall.
      cbn in Hall. discriminate.
    + exact (all_in_true _ _ Hall).
Qed.

End SearchFacts.

(** X18.  The hits of a search are the search results that go through
    the filter, in the order the store gave them, each with its id,
    content and metadata. *)
Theorem hits_are_the_matching_results
    (search_similar : string -> Z -> KB.Error + list KB.KnowledgeEntry)
    (query : string) (agent_type : option string)
    (tags : option (list string)) (limit : Z)
    (results : list KB.KnowledgeEntry) (hits : list KB.Hit) :
  search_similar query limit = inr results ->
  KB.search_documents search_similar query agent_type tags limit
  = KB.Results hits ->
  hits = map KB.hit (filter (matches agent_type tags) results).
Proof.
  intros Hstore. unfold KB.search_documents. rewrite Hstore.
  destruct (KB.given_text agent_type || KB.given_tags tags) eqn:Hgiven.
  - destruct (KB.filter_results agent_type tags results) as [e | kept] eqn:Hf;
      [discriminate |].
    intros H. inversion H. rewrite (filter_results_kept _ _ _ _ Hf).
    reflexivity.
  - intros H. inversion H. f_equal.
    apply orb_false_iff in Hgiven. destruct Hgiven as [Ha Ht].
    symmetry. apply forallb_filter_id. apply forallb_forall. intros r _.
    unfold matches, KB.passes. rewrite Ha, Ht. reflexivity.
Qed.

Lemma hits_are_the_matching_results_witness :
  [KB.hit SearchSamples.tagged]
  = map KB.hit
      (filter (matches (Some "technical") (Some ["pet"]))
         [SearchSamples.machine; SearchSamples.tagged]).
Proof.
  apply (hits_are_the_matching_results
           (SearchSamples.store [SearchSamples.machine; SearchSamples.tagged])
           "seal" (Some "technical") (Some ["pet"]) 5).
  - reflexivity.
  - vm_compute. reflexivity.
Defined.

(** X19.  Every hit satisfies the filter that was asked for: with an
    agent type given, the hit's metadata holds that agent type; with
    tags given, the hit's metadata has a [tags] entry that contains
    every one of them.  Entries that lack the key are never returned. *)
Theorem hits_satisfy_the_filter
    (search_similar : string -> Z -> KB.Error + list KB.KnowledgeEntry)
    (query : string) (agent_type : option string)
    (tags : option (list string)) (limit : Z) (hits : list KB.Hit)
    (h : KB.Hit) :
  KB.search_documents search_similar query agent_type tags limit
  = KB.Results hits ->
  In h hits ->
  (forall a,
      agent_type = Some a -> a <> EmptyString ->
      KB.lookup "agent_type" (KB.hit_metadata h) = Some (KB.JStr a))
  /\ (forall l,
         tags = Some l -> l <> [] ->
         KB.lookup "tags" (KB.hit_metadata h) <> None
         /\ forall tag,
              In tag l ->
              KB.contains (KB.get (KB.hit_metadata h) "tags" (KB.JList []))
                          tag
              = inr true).
Proof.
  unfold KB.search_documents.
  destruct (search_similar query limit) as [e | results]; [discriminate |].
  destruct (KB.given_text agent_type || KB.given_tags tags) eqn:Hgiven.
  - destruct (KB.filter_results agent_type tags results) as [e | kept] eqn:Hf;
      [discriminate |].
    intros H Hin. inversion H; subst. apply in_map_iff in Hin.
    destruct Hin as (r & <- & Hin).
    rewrite (filter_results_kept _ _ _ _ Hf) in Hin.
    apply filter_In in Hin. destruct Hin as [_ Hm].
    exact (matches_spec agent_type tags r Hm).
  - intros _ _. apply orb_false_iff in Hgiven. destruct Hgiven as [Ha Ht].
    split.
    + intros a -> Hne. cbn in Ha.
      destruct (String.eqb_spec a EmptyString); [contradiction | discriminate].
    + intros l -> Hne. cbn in Ht. destruct l; [congruence | discriminate].
Qed.

Lemma hits_satisfy_the_filter_witness :
  (forall a,
      Some "technical" = Some a -> a <> EmptyString ->
      KB.lookup "agent_type" (KB.hit_metadata (KB.hit SearchSamples.tagged))
      = Some (KB.JStr a))
  /\ (forall l,
         Some ["pet"] = Some l -> l <> [] ->
         KB.lookup "tags" (KB.hit_metadata (KB.hit SearchSamples.tagged))
         <> None
         /\ forall tag,
              In tag l ->
              KB.contains
                (KB.get (KB.hit_metadata (KB.hit SearchSamples.tagged))
                        "tags" (KB.JList [])) tag
              = inr true).
Proof.
  apply (hits_satisfy_the_filter
           (SearchSamples.store [SearchSamples.machine; SearchSamples.tagged])
           "seal" (Some "technical") (Some ["pet"]) 5
           [KB.hit SearchSamples.tagged]).
  - vm_compute. reflexivity.
  - left. reflexivity.
Defined.

(** X20.  One entry is enough to fail a whole search: when tags are
    asked for and the store returns, anywhere in its results, an entry
    that gets past the agent-type test and whose [tags] are null, the
    endpoint answers with status 500 and returns no hit at all. *)
Theorem null_tags_fail_the_search
    (search_similar : string -> Z -> KB.Error + list KB.KnowledgeEntry)
    (query : string) (agent_type : option string) (l : list string)
    (limit : Z) (results : list KB.KnowledgeEntry) (r : KB.KnowledgeEntry) :
  search_similar query limit = inr results ->
  In r results ->
  l <> [] ->
  (KB.given_text agent_type = false
   \/ exists a, agent_type = Some a
                /\ KB.lookup "agent_type" (KB.metadata r) = Some (KB.JStr a)) ->
  KB.lookup "tags" (KB.metadata r) = Some KB.JNull ->
  exists e,
    KB.search_documents search_similar query agent_type (Some l) limit
    = KB.Status500 e.
Proof.
  intros Hstore Hin Hne Hagent Hnull.
  unfold KB.search_documents. rewrite Hstore.
  assert (Htags : KB.given_tags (Some l) = true).
  { destruct l; [congruence | reflexivity]. }
  rewrite Htags, orb_true_r.
  assert (Herr : KB.passes agent_type (Some l) r
                 = inl (KB.TypeError "NoneType")).
  { unfold KB.passes. rewrite Htags.
    assert (Hpast : KB.given_text agent_type
                    && KB.differs
                         (KB.get (KB.metadata r) "agent_type" KB.JNull)
                         (match agent_type with
                          | Some a => a
                          | None => EmptyString
                          end) = false).
    { destruct Hagent as [-> | (a & -> & Hl)]; [reflexivity |].
      unfold KB.get. rewrite Hl. cbn [KB.differs].
      rewrite String.eqb_refl. apply andb_false_r. }
    rewrite Hpast. unfold KB.get. rewrite Hnull.
    destruct l; [congruence | reflexivity]. }
  destruct (filter_results_error agent_type (Some l) results r _ Hin Herr)
    as [e' ->].
  eauto.
Qed.

Lemma null_tags_fail_the_search_witness :
  exists e,
    KB.search_documents
      (SearchSamples.store [SearchSamples.tagged; SearchSamples.null_tags])
      "board" (Some "technical") (Some ["pet"]) 5
    = KB.Status500 e.
Proof.
  apply (null_tags_fail_the_search
           (SearchSamples.store [SearchSamples.tagged; SearchSamples.null_tags])
           "board" (Some "technical") ["pet"] 5
           [SearchSamples.tagged; SearchSamples.null_tags]
           SearchSamples.null_tags).
  - reflexivity.
  - right. left. reflexivity.
  - discriminate.
  - right. exists "technical". split; reflexivity.
  - reflexivity.
Defined.

(** X11.  Consecutive chunks of a text overlap as the processor's
    [chunk_overlap] says: the chunks are the joins of non-empty runs of
    words of the text, of which each one starts with the slice
    [[-chunk_overlap:]] of the one before it (its last [chunk_overlap]
    words, when that number is positive). *)
Theorem consecutive_chunks_overlap (self : DP.t) (words : list string) :
  exists segs,
    DP._extract_text_from_txt self words = map (Py.join " ") segs
    /\ overlapping (DP.chunk_overlap self) segs
    /\ (forall seg, In seg segs -> seg <> [] /\ run_of words seg).
Proof.
  unfold DP._extract_text_from_txt, DP.chunk_words.
  destruct (overlap_invariant_fold self words [] (DP.mkChunker [] [] 0))
    as (segs & Htext & Hov & Hheld & Hruns & (before & Hend)).
  { exists []. repeat split; try contradiction; [constructor | |].
    - intros front last Heq. destruct front; discriminate.
    - exists []. reflexivity. }
  cbn [app] in Hruns, Hend. unfold DP.flush.
  destruct (DP.current_chunk
              (fold_left (DP.feed self) words (DP.mkChunker [] [] 0)))
    as [| x held] eqn:Hcur; cbn [Py.truthy_list].
  - exists segs. auto.
  - exists (segs ++ [x :: held])%list. split; [| split].
    + rewrite map_app, Htext. reflexivity.
    + apply overlapping_snoc; [exact Hov | exact Hheld].
    + intros seg Hin. apply in_app_or in Hin.
      destruct Hin as [Hin | [<- | []]]; [auto |].
      split; [discriminate |].
      exists before, []. rewrite app_nil_r. exact Hend.
Qed.

Example overlapping_chunks_example :
  DP._extract_text_from_txt ChunkSamples.processor ChunkSamples.words
  = ["thin board folds"; "folds flat"].
Proof. vm_compute. reflexivity. Qed.

Example zero_overlap_example :
  DP._extract_text_from_txt ChunkSamples.no_overlap ChunkSamples.words
  = ["thin board folds"; "thin board folds flat"; "thin board folds flat"].
Proof. vm_compute. reflexivity. Qed.
